(** * schnetkit.ase.converter: the neighbourhood cache of [Converter]

    A shallow embedding of [src/schnetkit/ase/converter.py].

    Numbers.  Coordinates, cell entries, skin and cutoff are IEEE 754
    binary64 values ([float64]), with the operations of the standard
    library's [SpecFloat] at precision 53 and maximal exponent 1024,
    rounding to nearest even: the arithmetic of numpy's float64 arrays and
    of Python's [float].  NaN, infinities, signed zeros, rounding, overflow
    and underflow are those of the source.  The one operation that is not
    an IEEE operation, Python's [float ** 2], belongs to the capabilities
    the module relies on ([Externals]).  The readings of the monotonic
    clock are kept as rationals.

    Objects.  An [ase.Atoms] object is modelled by the three attributes the
    source reads ([get_positions], [get_cell], [get_pbc]); [Atoms.copy] is
    a copy by value.  The converter object [self] lives in a [World]
    together with the trace of calls made to the external capabilities and
    the number of readings of the monotonic clock. *)

From Stdlib Require Import QArith Qminmax Lqa.
From Stdlib Require Import SpecFloat.
From stdpp Require Import base option list strings gmap.

Local Open Scope Q_scope.

(** ** Exceptions and results *)

(** The exceptions a call can end with: numpy's [ValueError] (shapes that do
    not broadcast, [max] of an empty array), [AttributeError] (an attribute
    of [None]), [OverflowError] (the square of the skin), [TypeError] (a
    keyword argument that collides with a parameter), and whatever an
    external capability raises. *)
Inductive Exception : Type :=
  | ValueError
  | AttributeError
  | OverflowError
  | TypeError
  | ExternalError (what : string).

Inductive Result (A : Type) : Type :=
  | Ok (a : A)
  | Raise (e : Exception).
Arguments Ok {A} a.
Arguments Raise {A} e.

Definition Result_bind {A B} (r : Result A) (k : A -> Result B) : Result B :=
  match r with
  | Ok a => k a
  | Raise e => Raise e
  end.

(** ** Binary64 *)

Definition float64 : Type := spec_float.

Definition fadd : float64 -> float64 -> float64 := SFadd 53 1024.
Definition fsub : float64 -> float64 -> float64 := SFsub 53 1024.
Definition fmul : float64 -> float64 -> float64 := SFmul 53 1024.
Definition fdiv : float64 -> float64 -> float64 := SFdiv 53 1024.

(** [x == y], [x < y] and [x <= y]; all three are [False] on NaN. *)
Definition feqb : float64 -> float64 -> bool := SFeqb.
Definition fltb : float64 -> float64 -> bool := SFltb.
Definition fleb : float64 -> float64 -> bool := SFleb.

Definition fzero : float64 := S754_zero false.

(** The float nearest to an integer. *)
Definition fz (z : Z) : float64 := binary_normalize 53 1024 z 0 false.

(** The float [m * 2 ** e], when it needs no rounding. *)
Definition fexact (m e : Z) : float64 := binary_normalize 53 1024 m e false.

(** The rational a finite float stands for. *)
Definition F2Q (x : float64) : Q :=
  match x with
  | S754_finite s m e =>
      (if s then - inject_Z (Zpos m) else inject_Z (Zpos m)) * 2 ^ e
  | _ => 0
  end.

(** ** Data model *)

Definition Vec3 : Type := float64 * float64 * float64.

(** [ase.Atoms]: an (n,3) array of positions, a (3,3) cell, 3 flags. *)
Record Atoms : Type := mkAtoms {
  get_positions : list Vec3;
  get_cell : Vec3 * Vec3 * Vec3;
  get_pbc : bool * bool * bool
}.

Definition Atoms_copy (a : Atoms) : Atoms :=
  {| get_positions := get_positions a;
     get_cell := get_cell a;
     get_pbc := get_pbc a |}.

Definition Idx : Type := list (list Z).
Definition Offset : Type := list (list Vec3).

(** [Neighborhood = namedtuple("Neighborhood", ["idx", "offset"])] *)
Record Neighborhood : Type := mkNeighborhood {
  idx : Idx;
  offset : Offset
}.

(** Python values that can be passed as keyword arguments, with their
    truth value. *)
Inductive PyVal : Type :=
  | PyNone
  | PyBool (b : bool)
  | PyInt (z : Z)
  | PyFloat (x : float64)
  | PyStr (s : string).

Definition truthy (v : PyVal) : bool :=
  match v with
  | PyNone => false
  | PyBool b => b
  | PyInt z => negb (z =? 0)%Z
  | PyFloat x => negb (feqb x fzero)
  | PyStr s => match s with EmptyString => false | String _ _ => true end
  end.

(** ** The numpy expressions of [_needs_update] *)

Definition Vec3_ne (u v : Vec3) : bool * bool * bool :=
  let '(u0, u1, u2) := u in
  let '(v0, v1, v2) := v in
  (negb (feqb u0 v0), negb (feqb u1 v1), negb (feqb u2 v2)).

Definition any3 (b : bool * bool * bool) : bool :=
  let '(b0, b1, b2) := b in b0 || b1 || b2.

(** [(c1 != c2).any()] on (3,3) arrays *)
Definition cell_ne_any (c1 c2 : Vec3 * Vec3 * Vec3) : bool :=
  let '(r0, r1, r2) := c1 in
  let '(s0, s1, s2) := c2 in
  any3 (Vec3_ne r0 s0) || any3 (Vec3_ne r1 s1) || any3 (Vec3_ne r2 s2).

(** [(p1 != p2).any()] on arrays of 3 booleans *)
Definition pbc_ne_any (p1 p2 : bool * bool * bool) : bool :=
  let '(a0, a1, a2) := p1 in
  let '(b0, b1, b2) := p2 in
  any3 (xorb a0 b0, xorb a1 b1, xorb a2 b2).

Definition Vec3_sub (u v : Vec3) : Vec3 :=
  let '(u0, u1, u2) := u in
  let '(v0, v1, v2) := v in
  (fsub u0 v0, fsub u1 v1, fsub u2 v2).

(** [my - new] on arrays of shapes (n,3) and (m,3): elementwise when
    [n = m], broadcast when one of them has a single row, [ValueError]
    otherwise. *)
Definition array_sub (my new : list Vec3) : Result (list Vec3) :=
  if (length my =? length new)%nat then Ok (zip_with Vec3_sub my new)
  else match my, new with
       | [p], _ => Ok ((fun q => Vec3_sub p q) <$> new)
       | _, [q] => Ok ((fun p => Vec3_sub p q) <$> my)
       | _, _ => Raise ValueError
       end.

(** [x ** 2] on an element of a float64 array: numpy squares by one
    multiplication. *)
Definition np_square (x : float64) : float64 := fmul x x.

(** [d ** 2] followed by [.sum(1)] on one row: numpy adds the three squares
    to a zero from left to right, and adding the first to the zero is
    exact. *)
Definition row_sq_sum (d : Vec3) : float64 :=
  let '(d0, d1, d2) := d in
  fadd (fadd (np_square d0) (np_square d1)) (np_square d2).

(** [numpy.maximum]: the larger of the two, and NaN when either is NaN. *)
Definition np_maximum (x y : float64) : float64 :=
  match x, y with
  | S754_nan, _ => x
  | _, S754_nan => y
  | _, _ => if fltb x y then y else x
  end.

(** [.max()]: numpy raises [ValueError] on an array without elements. *)
Definition array_max (l : list float64) : Result float64 :=
  match l with
  | [] => Raise ValueError
  | x :: xs => Ok (fold_left np_maximum xs x)
  end.

(** [((my - new) ** 2).sum(1).max()] *)
Definition max_sq_displacement (my new : list Vec3) : Result float64 :=
  Result_bind (array_sub my new) (fun d => array_max (row_sq_sum <$> d)).

(** ** The converter object and its collaborators *)

(** [schnetpack.environment.AseEnvironmentProvider(cutoff=...)] *)
Record AseEnvironmentProvider : Type := mkAseEnvironmentProvider {
  Ase_cutoff : float64
}.

(** [class FakeEnvironmentProvider(BaseEnvironmentProvider)]: [__init__]
    stores the neighbourhood it is given, which may be [None]. *)
Record FakeEnvironmentProvider : Type := mkFakeEnvironmentProvider {
  Fake_neighborhood : option Neighborhood
}.

(** [BaseEnvironmentProvider]: the interface the representation converter
    queries. *)
Class BaseEnvironmentProvider (P : Type) : Type :=
  get_environment : P -> Atoms -> Result (Idx * Offset).

(** [FakeEnvironmentProvider.get_environment]: the argument [atoms] is not
    read; [self.neighborhood.idx] on [None] is an [AttributeError]. *)
#[global] Instance Fake_get_environment :
  BaseEnvironmentProvider FakeEnvironmentProvider :=
  fun self _atoms =>
    match Fake_neighborhood self with
    | Some nb => Ok (idx nb, offset nb)
    | None => Raise AttributeError
    end.

(** The capabilities the module relies on: device selection
    ([schnetkit.helpers.guess_device_settings], not part of this file), the
    neighbour search behind [AseEnvironmentProvider.get_environment] as a
    function of the provider's cutoff and the configuration, schnetpack's
    [AtomsConverter(environment_provider=p, device=d)(atoms)] for any
    provider that implements the interface, [time.monotonic()] as the
    value of the [n]-th reading of the clock, and [x ** 2] on a Python
    float.

    [x ** 2] is computed by the C library's [pow] and raises
    [OverflowError] when the result of a finite [x] is out of range; its
    rounding is the library's.  Two facts about it are used: a square is
    never below zero, and the square of a zero is [0.0]. *)
Class Externals : Type := {
  Device : Type;
  Settings : Type;
  Inputs : Type;
  guess_device_settings : option Device -> Result (Device * Settings);
  ase_neighbor_list : float64 -> Atoms -> Result (Idx * Offset);
  AtomsConverter :
    forall (P : Type), BaseEnvironmentProvider P ->
      P -> Device -> Atoms -> Result Inputs;
  clock : nat -> Q;
  float_pow2 : float64 -> Result float64;
  float_pow2_not_negative :
    forall x y : float64, float_pow2 x = Ok y -> fltb y fzero = false;
  float_pow2_zero :
    forall x : float64, feqb x fzero = true -> float_pow2 x = Ok fzero
}.

Section Converter.

Context `{Externals}.

#[global] Instance Ase_get_environment :
  BaseEnvironmentProvider AseEnvironmentProvider :=
  fun self a => ase_neighbor_list (Ase_cutoff self) a.

(** *** State *)

Record Converter : Type := mkConverter {
  device : Device;
  skin : float64;
  cutoff : float64;
  environment_provider : AseEnvironmentProvider;
  atoms : option Atoms;
  neighborhood : option Neighborhood
}.

Definition set_atoms (a : option Atoms) (c : Converter) : Converter :=
  {| device := device c; skin := skin c; cutoff := cutoff c;
     environment_provider := environment_provider c;
     atoms := a; neighborhood := neighborhood c |}.

Definition set_neighborhood (n : option Neighborhood) (c : Converter)
  : Converter :=
  {| device := device c; skin := skin c; cutoff := cutoff c;
     environment_provider := environment_provider c;
     atoms := atoms c; neighborhood := n |}.

(** Calls made to the external capabilities, in order. *)
Inductive Event : Type :=
  | EnvCall (p : AseEnvironmentProvider) (a : Atoms)
  | ConvCall (p : FakeEnvironmentProvider) (d : Device) (a : Atoms).

Record World : Type := mkWorld {
  self : Converter;
  trace : list Event;
  ticks : nat
}.

(** [Converted = namedtuple("Converted", ["inputs", "neighborhood"])] *)
Record Converted : Type := mkConverted {
  inputs : Inputs;
  Converted_neighborhood : option Neighborhood
}.

(** What [__call__] returns: [Converted(...)] alone, or the pair
    [(Converted(...), nl_construction_time)]. *)
Inductive Returned : Type :=
  | Plain (c : Converted)
  | Timed (c : Converted) (nl_construction_time : option Q).

(** *** Statements that read and write the world and may raise *)

Definition M (A : Type) : Type := World -> World * Result A.

Definition ret {A} (a : A) : M A := fun w => (w, Ok a).

Definition bind {A B} (m : M A) (k : A -> M B) : M B :=
  fun w => match m w with
           | (w', Ok a) => k a w'
           | (w', Raise e) => (w', Raise e)
           end.

Definition lift {A} (r : Result A) : M A := fun w => (w, r).

Definition get_self : M Converter := fun w => (w, Ok (self w)).

Definition modify_self (f : Converter -> Converter) : M unit :=
  fun w => ({| self := f (self w); trace := trace w; ticks := ticks w |},
            Ok tt).

Definition record (ev : Event) : M unit :=
  fun w => ({| self := self w; trace := trace w ++ [ev]; ticks := ticks w |},
            Ok tt).

Definition monotonic : M Q :=
  fun w => ({| self := self w; trace := trace w; ticks := S (ticks w) |},
            Ok (clock (ticks w))).

#[global] Instance M_ret : MRet M := @ret.
#[global] Instance M_bind : MBind M := fun A B k m => bind m k.

(** *** The methods of [Converter] *)

Definition __init__ (cutoff0 : float64) (device0 : option Device)
    (skin0 : float64) : Result Converter :=
  Result_bind (guess_device_settings device0) (fun '(dev, _) =>
  let skin1 := skin0 in
  let cutoff1 := fadd cutoff0 skin0 in
  Ok {| device := dev;
        skin := skin1;
        cutoff := cutoff1;
        environment_provider := {| Ase_cutoff := cutoff1 |};
        atoms := None;
        neighborhood := None |}).

(** ['nl_construction_time' in kwargs and kwargs['nl_construction_time']] *)
Definition capture_nl_construction_time (kwargs : gmap string PyVal)
  : PyVal :=
  match kwargs !! "nl_construction_time"%string with
  | None => PyBool false
  | Some v => v
  end.

(** In the last line the left operand is evaluated first, then
    [self.skin ** 2], then [>]. *)
Definition _needs_update (c : Converter) (new : Atoms) : Result bool :=
  match atoms c with
  | None => Raise AttributeError
  | Some my =>
      if cell_ne_any (get_cell my) (get_cell new)
         || pbc_ne_any (get_pbc my) (get_pbc new)
      then Ok true
      else
        let my_positions := get_positions my in
        let new_positions := get_positions new in
        Result_bind (max_sq_displacement my_positions new_positions)
          (fun m =>
        Result_bind (float_pow2 (skin c))
          (fun skin2 => Ok (fltb skin2 m)))
  end.

Definition needs_update (a : Atoms) : M bool :=
  c ← get_self;
  match atoms c with
  | None => modify_self (set_atoms (Some a));; ret true
  | Some _ => lift (_needs_update c a)
  end.

Definition get_neighborhood (a : Atoms) : M Neighborhood :=
  c ← get_self;
  record (EnvCall (environment_provider c) a);;
  r ← lift (get_environment (environment_provider c) a);
  ret {| idx := fst r; offset := snd r |}.

Definition __call__ (a : Atoms) (kwargs : gmap string PyVal) : M Returned :=
  stale ← needs_update a;
  nl_construction_time ←
    (if (stale : bool) then
       modify_self (set_atoms (Some (Atoms_copy a)));;
       start ← (if truthy (capture_nl_construction_time kwargs)
                 then monotonic else ret 0);
       c ← get_self;
       nb ← match atoms c with
             | Some a' => get_neighborhood a'
             | None => lift (Raise AttributeError)
             end;
       modify_self (set_neighborhood (Some nb));;
       if truthy (capture_nl_construction_time kwargs)
       then stop ← monotonic; ret (Some (stop - start))
       else ret None
     else ret None) : M (option Q);
  c ← get_self;
  let converter := AtomsConverter _ _
                     {| Fake_neighborhood := neighborhood c |} (device c) in
  record (ConvCall {| Fake_neighborhood := neighborhood c |} (device c) a);;
  inputs0 ← lift (converter a);
  c ← get_self;
  if truthy (capture_nl_construction_time kwargs)
  then ret (Timed {| inputs := inputs0;
                     Converted_neighborhood := neighborhood c |}
                  nl_construction_time)
  else ret (Plain {| inputs := inputs0;
                     Converted_neighborhood := neighborhood c |}).

(** The call [conv(atoms, **kwargs)]: a keyword [self] or [atoms] collides
    with a parameter of [__call__(self, atoms, **kwargs)], and Python
    raises [TypeError] before the body runs; every other keyword reaches
    the body in [kwargs]. *)
Definition Converter_call (a : Atoms) (kwargs : gmap string PyVal)
  : M Returned :=
  match kwargs !! "self"%string, kwargs !! "atoms"%string with
  | None, None => __call__ a kwargs
  | _, _ => lift (Raise TypeError)
  end.

End Converter.
(** ** The staleness rule in the words of the specification *)

Definition cell_entries (c : Vec3 * Vec3 * Vec3) : list float64 :=
  let '((c00, c01, c02), (c10, c11, c12), (c20, c21, c22)) := c in
  [c00; c01; c02; c10; c11; c12; c20; c21; c22].

Definition pbc_flags (p : bool * bool * bool) : list bool :=
  let '(p0, p1, p2) := p in [p0; p1; p2].

(** Some element of the one cell differs from the same element of the
    other: [!=] is true of them. *)
Definition cell_differs (c1 c2 : Vec3 * Vec3 * Vec3) : Prop :=
  exists (i : nat) (x y : float64),
    cell_entries c1 !! i = Some x /\ cell_entries c2 !! i = Some y /\
    feqb x y = false.

(** Some periodic flag differs. *)
Definition pbc_differs (p1 p2 : bool * bool * bool) : Prop :=
  exists (i : nat) (x y : bool),
    pbc_flags p1 !! i = Some x /\ pbc_flags p2 !! i = Some y /\ x <> y.

(** Two positions are the same point: [==] is true of each coordinate. *)
Definition Vec3_eq (p q : Vec3) : Prop :=
  let '(p0, p1, p2) := p in
  let '(q0, q1, q2) := q in
  feqb p0 q0 = true /\ feqb p1 q1 = true /\ feqb p2 q2 = true.

(** Some atom is at a different position. *)
Definition positions_differ (new my : list Vec3) : Prop :=
  exists (i : nat) (p q : Vec3),
    new !! i = Some p /\ my !! i = Some q /\ ~ Vec3_eq p q.

(** The incoming configuration differs from the cached one in some element
    of the cell, some periodic flag or the position of some atom. *)
Definition configuration_differs (new my : Atoms) : Prop :=
  cell_differs (get_cell new) (get_cell my) \/
  pbc_differs (get_pbc new) (get_pbc my) \/
  positions_differ (get_positions new) (get_positions my).

(** Zero of either sign, or NaN: what a float minus itself can be. *)
Definition is_null (x : float64) : bool :=
  match x with
  | S754_zero _ | S754_nan => true
  | _ => false
  end.

Section Observations.

Context `{Externals}.

(** The invocations of the neighbour search recorded in a trace. *)
Definition invocations (t : list Event)
  : list (AseEnvironmentProvider * Atoms) :=
  omap (fun ev => match ev with
                  | EnvCall p a => Some (p, a)
                  | ConvCall _ _ _ => None
                  end) t.

(** The call [self(a, **kwargs)] in world [w] recomputes the neighbourhood:
    it invokes the neighbour search exactly once, on a copy of [a]. *)
Definition recomputes (a : Atoms) (kwargs : gmap string PyVal) (w : World)
  : Prop :=
  invocations (trace (fst (__call__ a kwargs w))) =
  invocations (trace w) ++ [(environment_provider (self w), Atoms_copy a)].

(** What the call returns once the converter has produced [i]. *)
Definition returned (kwargs : gmap string PyVal) (nb : option Neighborhood)
    (t : option Q) (i : Inputs) : Result Returned :=
  Ok (if truthy (capture_nl_construction_time kwargs)
      then Timed {| inputs := i; Converted_neighborhood := nb |} t
      else Plain {| inputs := i; Converted_neighborhood := nb |}).

(** The call is served from the cache: the converter object is left as it
    was, the only external call is the representation converter on a
    provider that holds the cached neighbourhood, and what the call returns
    carries that neighbourhood and no measured time. *)
Definition reuses (a : Atoms) (kwargs : gmap string PyVal) (w : World)
  : Prop :=
  let fake := {| Fake_neighborhood := neighborhood (self w) |} in
  self (fst (__call__ a kwargs w)) = self w /\
  trace (fst (__call__ a kwargs w)) =
    trace w ++ [ConvCall fake (device (self w)) a] /\
  snd (__call__ a kwargs w) =
    Result_bind (AtomsConverter _ _ fake (device (self w)) a)
                (returned kwargs (neighborhood (self w)) None).

Definition Returned_Converted (r : Returned) : Converted :=
  match r with
  | Plain c => c
  | Timed c _ => c
  end.

(** A sequence of calls on the same converter object, whatever each call
    returns or raises. *)
Definition calls (script : list (Atoms * gmap string PyVal)) (w : World)
  : World :=
  foldl (fun w0 '(a, kwargs) => fst (__call__ a kwargs w0)) w script.

(** The maximum of the squared displacements, as the code computes it,
    exceeds the square of the skin, as the code computes it. *)
Definition displacement_exceeds_skin (c : Converter) (my new : Atoms)
  : Prop :=
  exists m skin2 : float64,
    max_sq_displacement (get_positions my) (get_positions new) = Ok m /\
    float_pow2 (skin c) = Ok skin2 /\
    fltb skin2 m = true.

(** Keyword arguments that can reach the body of [__call__]. *)
Definition reaches_body (kwargs : gmap string PyVal) : Prop :=
  kwargs !! "self"%string = None /\ kwargs !! "atoms"%string = None.

End Observations.

(** ** A concrete instance of the capabilities *)

(** The float nearest to the fraction [n / d] of two small integers: what
    Python reads from the decimal literal of that fraction. *)
Definition fq (n d : Z) : float64 := fdiv (fz n) (fz d).

Definition zero3 : Vec3 := (fzero, fzero, fzero).

(** The point [(x, 0, 0)]. *)
Definition on_x (x : float64) : Vec3 := (x, fzero, fzero).

(** The atoms within the cutoff of position [p], by index. *)
Definition within (cutoff0 : float64) (ps : list Vec3) (i : nat) (p : Vec3)
  : list Z :=
  omap (fun '(j, q) =>
          if negb (i =? j)%nat
             && fleb (row_sq_sum (Vec3_sub p q)) (fmul cutoff0 cutoff0)
          then Some (Z.of_nat j) else None)
       (imap pair ps).

(** A neighbour search without periodic images; it refuses a periodic
    direction on a cell without extent. *)
Definition demo_neighbor_list (cutoff0 : float64) (a : Atoms)
  : Result (Idx * Offset) :=
  if any3 (get_pbc a) && negb (cell_ne_any (get_cell a) (zero3, zero3, zero3))
  then Raise (ExternalError "singular cell")
  else
    let nbh := imap (within cutoff0 (get_positions a)) (get_positions a) in
    Ok (nbh, (fun js : list Z => (fun _ => zero3) <$> js) <$> nbh).

(** [x ** 2] with the square rounded to nearest; [OverflowError] when a
    finite [x] has an infinite square. *)
Definition demo_pow2 (x : float64) : Result float64 :=
  match x, fmul x x with
  | S754_finite _ _ _, S754_infinity _ => Raise OverflowError
  | _, y => Ok y
  end.

Definition demo_externals : Externals.
Proof.
  refine {|
    Device := string;
    Settings := unit;
    Inputs := list Vec3 * (Idx * Offset);
    guess_device_settings := fun d => Ok (default "cpu"%string d, tt);
    ase_neighbor_list := demo_neighbor_list;
    AtomsConverter := fun P get_env p _ a =>
      Result_bind (get_env p a) (fun io => Ok (get_positions a, io));
    clock := fun n => inject_Z (Z.of_nat n);
    float_pow2 := demo_pow2;
    float_pow2_not_negative := _;
    float_pow2_zero := _
  |}.
  - assert (Hround : forall mx ex lx,
              fltb (binary_round_aux 53 1024 false mx ex lx) fzero = false).
    { intros mx ex lx. unfold binary_round_aux.
      destruct (shr_fexp 53 1024 mx ex lx) as [mrs' e'].
      destruct (shr_fexp 53 1024 _ e' loc_Exact) as [mrs'' e''].
      destruct (shr_m mrs''); [reflexivity | | reflexivity].
      destruct (Z.leb e'' (1024 - 53)); reflexivity. }
    intros x y. unfold demo_pow2.
    destruct x as [s | s | | s m e]; simpl.
    + intros [= <-]. reflexivity.
    + intros [= <-]. destruct s; reflexivity.
    + intros [= <-]. reflexivity.
    + replace (xorb s s) with false by (destruct s; reflexivity).
      pose proof (Hround (Zpos (m * m)) (e + e)%Z loc_Exact) as Hsq.
      destruct (binary_round_aux 53 1024 false (Zpos (m * m)) (e + e) loc_Exact);
        [| discriminate | |]; intros [= <-]; exact Hsq.
  - intros x Hx.
    destruct x as [s | s | | s m e];
      [ destruct s; reflexivity
      | destruct s; discriminate Hx
      | discriminate Hx
      | destruct s; discriminate Hx ].
Defined.

Definition demo_cell : Vec3 * Vec3 * Vec3 :=
  (on_x (fz 20), (fzero, fz 20, fzero), (fzero, fzero, fz 20)).

Definition demo_atoms (ps : list Vec3) : Atoms :=
  {| get_positions := ps; get_cell := demo_cell;
     get_pbc := (false, false, false) |}.

Definition C0 : Atoms := demo_atoms [on_x fzero; on_x (fz 1); on_x (fz 7)].

(** The object [Converter(cutoff, skin=skin)] on the demo capabilities. *)
Definition demo_converter (cutoff0 skin0 : float64)
  : @Converter demo_externals :=
  {| device := ("cpu"%string : @Device demo_externals);
     skin := skin0;
     cutoff := fadd cutoff0 skin0;
     environment_provider := {| Ase_cutoff := fadd cutoff0 skin0 |};
     atoms := None;
     neighborhood := None |}.

Definition fresh_world (cutoff0 skin0 : float64) : @World demo_externals :=
  {| self := demo_converter cutoff0 skin0; trace := []; ticks := 0 |}.

Definition timing : gmap string PyVal :=
  {[ "nl_construction_time"%string := PyBool true ]}.

Definition no_kwargs : gmap string PyVal := ∅.

(** [C0] with the second atom moved along x by [dx]. *)
Definition C0_moved (dx : float64) : Atoms :=
  demo_atoms [on_x fzero; on_x (fadd (fz 1) dx); on_x (fz 7)].

(** [C0], periodic in the first direction. *)
Definition C0_periodic : Atoms :=
  {| get_positions := get_positions C0; get_cell := demo_cell;
     get_pbc := (true, false, false) |}.

(** [C0], periodic in the first direction on a cell without extent. *)
Definition C0_singular : Atoms :=
  {| get_positions := get_positions C0; get_cell := (zero3, zero3, zero3);
     get_pbc := (true, false, false) |}.

Definition no_atoms : Atoms := demo_atoms [].

(** The world after [conv = Converter(cutoff, skin=skin); conv(a)]. *)
Definition world_after (cutoff0 skin0 : float64) (a : Atoms)
  : @World demo_externals :=
  fst (@__call__ demo_externals a no_kwargs (fresh_world cutoff0 skin0)).

(** What the neighbour search gives for [C0] with a cutoff of 5.1, and the
    tuple [Converted(inputs, neighborhood)] built from it. *)
Definition C0_neighborhood : Neighborhood :=
  {| idx := [[1%Z]; [0%Z]; []]; offset := [[zero3]; [zero3]; []] |}.

Definition C0_converted : @Converted demo_externals :=
  {| inputs := ((get_positions C0,
                 (idx C0_neighborhood, offset C0_neighborhood))
                : @Inputs demo_externals);
     Converted_neighborhood := Some C0_neighborhood |}.

(** The worlds of the scenarios: [C0] cached with a skin of 0.1, [C0] cached
    with a skin of zero, a configuration without atoms cached, and the world
    left by the call with [C0_singular], in which the neighbour search
    raises. *)
Definition w_C0 : @World demo_externals := world_after (fz 5) (fq 1 10) C0.
Definition w_timed : @World demo_externals :=
  fst (@__call__ demo_externals C0 timing (fresh_world (fz 5) (fq 1 10))).
Definition w_zero_skin : @World demo_externals := world_after (fz 5) fzero C0.
Definition w_no_atoms : @World demo_externals :=
  world_after (fz 5) (fq 1 10) no_atoms.
Definition w_failed : @World demo_externals :=
  fst (@__call__ demo_externals C0_singular no_kwargs w_C0).


(** ** Further observations on a call *)

Definition Result_map {A B} (f : A -> B) (r : Result A) : Result B :=
  match r with
  | Ok a => Ok (f a)
  | Raise e => Raise e
  end.

Section FurtherObservations.

Context `{Externals}.

(** The invocations of the representation converter recorded in a trace. *)
Definition conversions (t : list Event)
  : list (FakeEnvironmentProvider * Device * Atoms) :=
  omap (fun ev => match ev with
                  | EnvCall _ _ => None
                  | ConvCall p d a => Some (p, d, a)
                  end) t.

(** The cache is coherent: either nothing is cached, or the cached
    neighbourhood is what the neighbour search of the object's provider
    gives for the cached configuration. *)
Definition coherent (c : Converter) : Prop :=
  match atoms c, neighborhood c with
  | None, None => True
  | Some my, Some nb =>
      get_environment (environment_provider c) my = Ok (idx nb, offset nb)
  | _, _ => False
  end.

(** The invocation of the representation converter that the call
    [self(a, **kwargs)] in world [w] makes when it gets that far. *)
Definition conversion (a : Atoms) (kwargs : gmap string PyVal) (w : World)
  : FakeEnvironmentProvider * Device * Atoms :=
  ({| Fake_neighborhood := neighborhood (self (fst (__call__ a kwargs w))) |},
   device (self w), a).

End FurtherObservations.

(** A second instance of the capabilities: as [demo_externals], but the
    representation converter has no ["cuda"] device. *)
Definition cuda_externals : Externals := {|
  Device := string;
  Settings := unit;
  Inputs := list Vec3 * (Idx * Offset);
  guess_device_settings := fun d => Ok (default "cpu"%string d, tt);
  ase_neighbor_list := demo_neighbor_list;
  AtomsConverter := fun P get_env p d a =>
    if String.eqb d "cuda"
    then Raise (ExternalError "no cuda device")
    else Result_bind (get_env p a) (fun io => Ok (get_positions a, io));
  clock := fun n => inject_Z (Z.of_nat n);
  float_pow2 := demo_pow2;
  float_pow2_not_negative := @float_pow2_not_negative demo_externals;
  float_pow2_zero := @float_pow2_zero demo_externals
|}.

(** [Converter(5.0, device="cuda", skin=0.1)] before its first call. *)
Definition w_cuda : @World cuda_externals :=
  {| self := {| device := ("cuda"%string : @Device cuda_externals);
                skin := fq 1 10;
                cutoff := fadd (fz 5) (fq 1 10);
                environment_provider :=
                  {| Ase_cutoff := fadd (fz 5) (fq 1 10) |};
                atoms := None;
                neighborhood := None |};
     trace := []; ticks := 0 |}.

(** A single atom at the origin, and two atoms close to it. *)
Definition one_atom : Atoms := demo_atoms [zero3].
Definition two_atoms : Atoms :=
  demo_atoms [(fq 1 20, fzero, fzero); (fzero, fq 1 20, fzero)].
Definition w_one_atom : @World demo_externals :=
  world_after (fz 5) (fq 1 10) one_atom.

(** A sequence of calls: [C0], a move within the skin with the timing asked
    for, then [C0] made periodic. *)
Definition demo_script : list (Atoms * gmap string PyVal) :=
  [(C0, no_kwargs); (C0_moved (fq 1 20), timing); (C0_periodic, no_kwargs)].

(** ** Configurations on which rounding shows *)

(** [C0] cached with a skin of 0.5. *)
Definition w_half : @World demo_externals := world_after (fz 5) (fq 1 2) C0.

(** One atom at [x = -2 ** -60], cached with a skin of 0.5, and the atom at
    [x = 0.5]: the distance between the two is [0.5 + 2 ** -60]. *)
Definition left_of_origin : Atoms := demo_atoms [on_x (fexact (-1) (-60))].
Definition at_half : Atoms := demo_atoms [on_x (fq 1 2)].
Definition w_left : @World demo_externals :=
  world_after (fz 5) (fq 1 2) left_of_origin.

(** A right triangle with sides [3 k], [4 k] and [5 k],
    [k = 213779419 * 2 ** -30]: one atom cached at the origin with a skin of
    [5 k], and the atom at [(3 k, 4 k, 0)], at distance [5 k] exactly. *)
Definition side3 : float64 := fexact 641338257 (-30).
Definition side4 : float64 := fexact 855117676 (-30).
Definition side5 : float64 := fexact 1068897095 (-30).
Definition at_corner : Atoms := demo_atoms [(side3, side4, fzero)].
Definition w_triangle : @World demo_externals :=
  world_after (fz 5) side5 one_atom.

(** [C0] with the first atom moved along x by [2 ** -600]. *)
Definition C0_nudged : Atoms :=
  demo_atoms [on_x (fexact 1 (-600)); on_x (fz 1); on_x (fz 7)].

(** [C0] cached with a skin of [2 ** 700], whose square is not a float. *)
Definition w_huge_skin : @World demo_externals :=
  world_after (fz 5) (fexact 1 700) C0.

(** [C0] on a cell with an entry that is not a number, and the world after
    a first call with it. *)
Definition C0_nan_cell : Atoms :=
  {| get_positions := get_positions C0;
     get_cell := ((S754_nan, fzero, fzero),
                  (fzero, fz 20, fzero), (fzero, fzero, fz 20));
     get_pbc := (false, false, false) |}.
Definition w_nan_cell : @World demo_externals :=
  world_after (fz 5) (fq 1 10) C0_nan_cell.
(** * Properties *)

(** ** Binary64 and the numpy expressions *)

Lemma feqb_finite (s1 s2 : bool) (m1 m2 : positive) (e1 e2 : Z) :
  feqb (S754_finite s1 m1 e1) (S754_finite s2 m2 e2) = true ->
  s1 = s2 /\ m1 = m2 /\ e1 = e2.
Proof.
  unfold feqb, SFeqb, SFcompare.
  destruct s1, s2; try discriminate;
    destruct (Z.compare e1 e2) eqn:He; try discriminate;
    destruct (Pos.compare_cont Eq m1 m2) eqn:Hm; try discriminate;
    intros _; apply Z.compare_eq in He; apply Pos.compare_eq in Hm; auto.
Qed.

Lemma feqb_sym (x y : float64) : feqb x y = feqb y x.
Proof.
  destruct (feqb x y) eqn:Hxy, (feqb y x) eqn:Hyx; try reflexivity; exfalso.
  - destruct x as [sx | sx | | sx mx ex], y as [sy | sy | | sy my ey];
      try (destruct sx; discriminate); try (destruct sy; discriminate);
      try discriminate.
    + destruct sx, sy; discriminate.
    + apply feqb_finite in Hxy as (-> & -> & ->).
      unfold feqb, SFeqb, SFcompare in Hyx.
      rewrite Z.compare_refl, Pos.compare_cont_refl in Hyx.
      destruct sy; discriminate.
  - destruct x as [sx | sx | | sx mx ex], y as [sy | sy | | sy my ey];
      try (destruct sx; discriminate); try (destruct sy; discriminate);
      try discriminate.
    + destruct sx, sy; discriminate.
    + apply feqb_finite in Hyx as (-> & -> & ->).
      unfold feqb, SFeqb, SFcompare in Hxy.
      rewrite Z.compare_refl, Pos.compare_cont_refl in Hxy.
      destruct sx; discriminate.
Qed.

(** [x == y] and [y < x] are never both true. *)
Lemma feqb_not_fltb (x y : float64) : feqb x y = true -> fltb y x = false.
Proof.
  rewrite feqb_sym. unfold feqb, fltb, SFeqb, SFltb.
  destruct (SFcompare y x) as [[| |] |]; try discriminate; reflexivity.
Qed.

(** Comparison with a zero does not look at its sign, and nothing is below
    NaN. *)
Lemma fltb_null (x m : float64) :
  is_null m = true -> fltb x fzero = false -> fltb x m = false.
Proof.
  destruct m as [s | s | | s mm e]; try discriminate; intros _.
  - destruct x as [sx | sx | | sx mx ex]; intros Hx; exact Hx.
  - intros _. destruct x; reflexivity.
Qed.

Lemma fsub_diag (x : float64) : is_null (fsub x x) = true.
Proof.
  destruct x as [s | s | | s m e]; try (destruct s; reflexivity).
  - reflexivity.
  - unfold fsub, SFsub. cbv zeta. rewrite Z.sub_diag. reflexivity.
Qed.

Lemma fsub_eqb (x y : float64) :
  feqb x y = true -> is_null (fsub x y) = true.
Proof.
  destruct x as [sx | sx | | sx mx ex], y as [sy | sy | | sy my ey];
    try (destruct sx; discriminate); try (destruct sy; discriminate);
    try discriminate.
  - intros _. destruct sx, sy; reflexivity.
  - destruct sx, sy; try discriminate; reflexivity.
  - intros (-> & -> & ->)%feqb_finite. apply fsub_diag.
Qed.

Lemma np_square_null (x : float64) :
  is_null x = true -> is_null (np_square x) = true.
Proof. destruct x; try discriminate; reflexivity. Qed.

Lemma fadd_null (x y : float64) :
  is_null x = true -> is_null y = true -> is_null (fadd x y) = true.
Proof.
  destruct x as [sx | | |], y as [sy | | |]; try discriminate;
    try reflexivity.
  destruct sx, sy; reflexivity.
Qed.

Lemma np_maximum_cases (x y : float64) :
  np_maximum x y = x \/ np_maximum x y = y.
Proof.
  unfold np_maximum.
  destruct x, y; auto; destruct (fltb _ _); auto.
Qed.

(** Find the index, below 9, at which the two lists differ as [H] says. *)
Ltac pick_index H :=
  let rec go n :=
    first
      [ exists n; do 2 eexists;
        split; [reflexivity | split; [reflexivity | exact H]]
      | lazymatch n with
        | 9%nat => fail
        | _ => go (S n)
        end ] in
  go 0%nat.

Lemma cell_ne_any_iff (c1 c2 : Vec3 * Vec3 * Vec3) :
  cell_ne_any c1 c2 = true <-> cell_differs c2 c1.
Proof.
  destruct c1 as [[[[a0 a1] a2] [[a3 a4] a5]] [[a6 a7] a8]].
  destruct c2 as [[[[b0 b1] b2] [[b3 b4] b5]] [[b6 b7] b8]].
  unfold cell_ne_any, cell_differs, Vec3_ne, any3, cell_entries. split.
  - intros Hany.
    repeat (apply orb_true_iff in Hany; destruct Hany as [Hany | Hany]);
      apply negb_true_iff in Hany; rewrite feqb_sym in Hany;
      pick_index Hany.
  - intros (i & x & y & Hx & Hy & Hne).
    assert (Hb : negb (feqb y x) = true).
    { apply negb_true_iff. rewrite feqb_sym. exact Hne. }
    do 9 (destruct i as [| i];
          [ injection Hx as <-; injection Hy as <-; rewrite Hb;
            rewrite ?orb_true_r; reflexivity | ]).
    discriminate Hx.
Qed.

Lemma pbc_ne_any_iff (p1 p2 : bool * bool * bool) :
  pbc_ne_any p1 p2 = true <-> pbc_differs p2 p1.
Proof.
  destruct p1 as [[a0 a1] a2], p2 as [[b0 b1] b2].
  unfold pbc_ne_any, pbc_differs, any3, pbc_flags. split.
  - intros Hany.
    repeat (apply orb_true_iff in Hany; destruct Hany as [Hany | Hany]).
    all: match type of Hany with
         | xorb ?a ?b = true =>
             assert (Hne : b <> a) by (destruct a, b; simpl in Hany; congruence)
         end; pick_index Hne.
  - intros (i & x & y & Hx & Hy & Hne).
    assert (Hb : xorb y x = true) by (destruct x, y; simpl; congruence).
    do 3 (destruct i as [| i];
          [ injection Hx as <-; injection Hy as <-; rewrite Hb;
            rewrite ?orb_true_r; reflexivity | ]).
    discriminate Hx.
Qed.

Lemma cell_differs_irrefl_finite (c : Vec3 * Vec3 * Vec3) :
  cell_ne_any c c = false -> ~ cell_differs c c.
Proof.
  intros Hsame Hd. apply cell_ne_any_iff in Hd. congruence.
Qed.

Lemma cell_ne_any_false (c1 c2 : Vec3 * Vec3 * Vec3) :
  ~ cell_differs c2 c1 -> cell_ne_any c1 c2 = false.
Proof.
  intros Hsame. apply not_true_iff_false.
  rewrite cell_ne_any_iff. exact Hsame.
Qed.

Lemma pbc_ne_any_false (p1 p2 : bool * bool * bool) :
  ~ pbc_differs p2 p1 -> pbc_ne_any p1 p2 = false.
Proof.
  intros Hsame. apply not_true_iff_false.
  rewrite pbc_ne_any_iff. exact Hsame.
Qed.

Lemma pbc_differs_irrefl (p : bool * bool * bool) : ~ pbc_differs p p.
Proof.
  intros (i & x & y & Hx & Hy & Hne). apply Hne. congruence.
Qed.

Lemma fold_left_np_maximum_elem (xs : list float64) (x : float64) :
  fold_left np_maximum xs x ∈ x :: xs.
Proof.
  revert x. induction xs as [| y ys IH]; intros x; simpl.
  - apply list_elem_of_here.
  - specialize (IH (np_maximum x y)).
    apply elem_of_cons in IH as [-> | Hin].
    + destruct (np_maximum_cases x y) as [-> | ->].
      * apply list_elem_of_here.
      * apply list_elem_of_further, list_elem_of_here.
    + do 2 apply list_elem_of_further. exact Hin.
Qed.

(** [.max()] returns an element of the array, and raises exactly on the
    array without elements. *)
Lemma array_max_Ok (l : list float64) (m : float64) :
  array_max l = Ok m -> m ∈ l.
Proof.
  destruct l as [| x xs]; simpl; [discriminate |].
  intros [= <-]. apply fold_left_np_maximum_elem.
Qed.

Lemma array_max_nonempty (l : list float64) :
  (0 < length l)%nat -> exists m, array_max l = Ok m.
Proof.
  destruct l as [| x xs]; simpl; [lia | eauto].
Qed.

Lemma array_max_Raise (l : list float64) (e : Exception) :
  array_max l = Raise e -> l = [] /\ e = ValueError.
Proof.
  destruct l; simpl; [intros [= <-]; auto | discriminate].
Qed.

Lemma array_sub_same_length (my new : list Vec3) :
  length my = length new -> array_sub my new = Ok (zip_with Vec3_sub my new).
Proof.
  intros Hlen. unfold array_sub. rewrite Hlen, Nat.eqb_refl. reflexivity.
Qed.

Lemma max_sq_displacement_total (my new : list Vec3) :
  length my = length new -> (0 < length new)%nat ->
  exists m, max_sq_displacement my new = Ok m.
Proof.
  intros Hlen Hpos. unfold max_sq_displacement.
  rewrite (array_sub_same_length _ _ Hlen). simpl.
  apply array_max_nonempty.
  rewrite length_fmap, length_zip_with. lia.
Qed.

(** The only exception of the left operand of the comparison is
    [ValueError]. *)
Lemma max_sq_displacement_Raise (my new : list Vec3) (e : Exception) :
  max_sq_displacement my new = Raise e -> e = ValueError.
Proof.
  unfold max_sq_displacement, array_sub.
  destruct (length my =? length new)%nat; simpl.
  - intros [_ ->]%array_max_Raise. reflexivity.
  - destruct my as [| p [| p' my]], new as [| q [| q' new]]; simpl;
      try (intros [_ ->]%array_max_Raise; reflexivity);
      try (intros [= <-]; reflexivity).
Qed.

Lemma row_sq_sum_null (d : Vec3) :
  (let '(d0, d1, d2) := d in
   is_null d0 = true /\ is_null d1 = true /\ is_null d2 = true) ->
  is_null (row_sq_sum d) = true.
Proof.
  destruct d as [[d0 d1] d2]. intros (H0 & H1 & H2). unfold row_sq_sum.
  repeat apply fadd_null; apply np_square_null; assumption.
Qed.

(** When every row of the two arrays is the same point, the maximum of the
    squared displacements is a zero or NaN. *)
Lemma max_sq_displacement_null (my new : list Vec3) (m : float64) :
  length my = length new ->
  (forall i p q, new !! i = Some p -> my !! i = Some q -> Vec3_eq p q) ->
  max_sq_displacement my new = Ok m ->
  is_null m = true.
Proof.
  intros Hlen Hsame. unfold max_sq_displacement.
  rewrite (array_sub_same_length _ _ Hlen). simpl.
  intros Hin%array_max_Ok.
  apply list_elem_of_fmap in Hin as (d & -> & Hd).
  apply list_elem_of_lookup in Hd as [i Hi].
  apply lookup_zip_with_Some in Hi as (q & p & -> & Hq & Hp).
  specialize (Hsame i p q Hp Hq).
  destruct p as [[p0 p1] p2], q as [[q0 q1] q2].
  destruct Hsame as (E0 & E1 & E2).
  apply row_sq_sum_null. simpl.
  rewrite feqb_sym in E0, E1, E2.
  auto using fsub_eqb.
Qed.

(** The same, for an array against itself, whatever it holds. *)
Lemma max_sq_displacement_self (ps : list Vec3) (m : float64) :
  max_sq_displacement ps ps = Ok m -> is_null m = true.
Proof.
  unfold max_sq_displacement.
  rewrite array_sub_same_length by reflexivity. simpl.
  intros Hin%array_max_Ok.
  apply list_elem_of_fmap in Hin as (d & -> & Hd).
  apply list_elem_of_lookup in Hd as [i Hi].
  apply lookup_zip_with_Some in Hi as (q & p & -> & Hq & Hp).
  rewrite Hq in Hp. injection Hp as <-.
  destruct q as [[q0 q1] q2].
  apply row_sq_sum_null. simpl. auto using fsub_diag.
Qed.

Section Properties.

Context `{Externals}.

(** *** The decision of [_needs_update] *)

(** With cell and flags unchanged, [_needs_update] is the comparison of the
    maximum squared displacement with the square of the skin, in this
    order of evaluation. *)
Lemma _needs_update_positions (c : Converter) (my a : Atoms) :
  atoms c = Some my ->
  ~ cell_differs (get_cell a) (get_cell my) ->
  ~ pbc_differs (get_pbc a) (get_pbc my) ->
  _needs_update c a =
    Result_bind (max_sq_displacement (get_positions my) (get_positions a))
      (fun m => Result_bind (float_pow2 (skin c))
                  (fun skin2 => Ok (fltb skin2 m))).
Proof.
  intros Hmy Hcell Hpbc. unfold _needs_update.
  rewrite Hmy, (cell_ne_any_false _ _ Hcell), (pbc_ne_any_false _ _ Hpbc).
  reflexivity.
Qed.

(** A change of the cell or of a flag decides before the positions are
    read. *)
Lemma _needs_update_changed (c : Converter) (my a : Atoms) :
  atoms c = Some my ->
  cell_differs (get_cell a) (get_cell my) \/
    pbc_differs (get_pbc a) (get_pbc my) ->
  _needs_update c a = Ok true.
Proof.
  intros Hmy Hchange. unfold _needs_update. rewrite Hmy.
  destruct Hchange as [Hc | Hp].
  - apply cell_ne_any_iff in Hc. rewrite Hc. reflexivity.
  - apply pbc_ne_any_iff in Hp. rewrite Hp, orb_true_r. reflexivity.
Qed.

(** A maximum that is a zero or NaN never exceeds the square of the
    skin. *)
Lemma null_not_above_skin (c : Converter) (m skin2 : float64) :
  is_null m = true -> float_pow2 (skin c) = Ok skin2 ->
  fltb skin2 m = false.
Proof.
  intros Hnull Hpow. apply fltb_null; [exact Hnull |].
  exact (float_pow2_not_negative _ _ Hpow).
Qed.

(** *** The three ways through [__call__] *)

Ltac unfold_M :=
  unfold __call__, needs_update, get_neighborhood, get_self, modify_self,
    record, monotonic, lift, mbind, M_bind, bind, mret, M_ret, ret in *.

Lemma needs_update_initialised (w : World) (a my : Atoms) :
  atoms (self w) = Some my ->
  needs_update a w = (w, _needs_update (self w) a).
Proof. intros Hmy. unfold_M. rewrite Hmy. reflexivity. Qed.

Lemma needs_update_fresh (w : World) (a : Atoms) :
  atoms (self w) = None ->
  needs_update a w =
    ({| self := set_atoms (Some a) (self w);
        trace := trace w; ticks := ticks w |}, Ok true).
Proof. intros Hnone. unfold_M. rewrite Hnone. reflexivity. Qed.

Lemma needs_update_Ok_false (w : World) (a : Atoms) :
  snd (needs_update a w) = Ok false ->
  exists my, atoms (self w) = Some my /\ _needs_update (self w) a = Ok false.
Proof.
  destruct (atoms (self w)) as [my |] eqn:Hmy.
  - rewrite (needs_update_initialised _ _ _ Hmy). eauto.
  - rewrite (needs_update_fresh _ _ Hmy). discriminate.
Qed.

Lemma needs_update_Raise (w : World) (a : Atoms) (e : Exception) :
  snd (needs_update a w) = Raise e ->
  exists my, atoms (self w) = Some my /\ _needs_update (self w) a = Raise e.
Proof.
  destruct (atoms (self w)) as [my |] eqn:Hmy.
  - rewrite (needs_update_initialised _ _ _ Hmy). eauto.
  - rewrite (needs_update_fresh _ _ Hmy). discriminate.
Qed.

(** [_needs_update] raises: the exception leaves [__call__], nothing has
    changed. *)
Lemma call_raise (w : World) (a : Atoms) (kwargs : gmap string PyVal)
    (e : Exception) :
  snd (needs_update a w) = Raise e ->
  __call__ a kwargs w = (w, Raise e).
Proof.
  intros (my & Hmy & Hraise)%needs_update_Raise.
  unfold_M. rewrite Hmy, Hraise. reflexivity.
Qed.

(** Cache hit: only the converter runs, on the cached neighbourhood. *)
Lemma call_hit (w : World) (a : Atoms) (kwargs : gmap string PyVal) :
  snd (needs_update a w) = Ok false ->
  __call__ a kwargs w =
    ({| self := self w;
        trace := trace w ++
          [ConvCall {| Fake_neighborhood := neighborhood (self w) |}
                    (device (self w)) a];
        ticks := ticks w |},
     Result_bind
       (AtomsConverter _ _ {| Fake_neighborhood := neighborhood (self w) |}
                       (device (self w)) a)
       (returned kwargs (neighborhood (self w)) None)).
Proof.
  intros (my & Hmy & Hfalse)%needs_update_Ok_false.
  unfold_M. rewrite Hmy, Hfalse. simpl.
  destruct (AtomsConverter _ _ _ _ a) as [i | e]; simpl; [| reflexivity].
  unfold returned.
  destruct (truthy (capture_nl_construction_time kwargs)); reflexivity.
Qed.

(** Stale: the configuration is copied, then the neighbour search runs; if
    it raises, the copy stays and the neighbourhood is the old one. *)
Lemma call_stale (w : World) (a : Atoms) (kwargs : gmap string PyVal) :
  snd (needs_update a w) = Ok true ->
  let flag := truthy (capture_nl_construction_time kwargs) in
  let c1 := set_atoms (Some (Atoms_copy a)) (self w) in
  let ev := EnvCall (environment_provider (self w)) (Atoms_copy a) in
  __call__ a kwargs w =
    match ase_neighbor_list (Ase_cutoff (environment_provider (self w)))
                            (Atoms_copy a) with
    | Raise e =>
        ({| self := c1; trace := trace w ++ [ev];
            ticks := if flag then S (ticks w) else ticks w |}, Raise e)
    | Ok io =>
        let nb := {| idx := fst io; offset := snd io |} in
        ({| self := set_neighborhood (Some nb) c1;
            trace := (trace w ++ [ev]) ++
              [ConvCall {| Fake_neighborhood := Some nb |}
                        (device (self w)) a];
            ticks := if flag then S (S (ticks w)) else ticks w |},
         Result_bind
           (AtomsConverter _ _ {| Fake_neighborhood := Some nb |}
                           (device (self w)) a)
           (returned kwargs (Some nb)
              (if flag then Some (clock (S (ticks w)) - clock (ticks w))
               else None)))
    end.
Proof.
  intros Hstale flag c1 ev. subst flag c1 ev.
  destruct (atoms (self w)) as [my |] eqn:Hmy.
  - rewrite (needs_update_initialised _ _ _ Hmy) in Hstale. simpl in Hstale.
    unfold_M. rewrite Hmy, Hstale. simpl.
    unfold get_environment, Ase_get_environment.
    destruct (truthy (capture_nl_construction_time kwargs)) eqn:Hflag; simpl;
      destruct (ase_neighbor_list _ (Atoms_copy a)) as [io | e]; simpl;
      try reflexivity;
      destruct (AtomsConverter _ _ _ _ a) as [i | e]; simpl;
      unfold returned; rewrite ?Hflag; reflexivity.
  - clear Hstale. unfold_M. rewrite Hmy. simpl.
    unfold get_environment, Ase_get_environment.
    destruct (truthy (capture_nl_construction_time kwargs)) eqn:Hflag; simpl;
      destruct (ase_neighbor_list _ (Atoms_copy a)) as [io | e]; simpl;
      try reflexivity;
      destruct (AtomsConverter _ _ _ _ a) as [i | e]; simpl;
      unfold returned; rewrite ?Hflag; reflexivity.
Qed.


(** *** Recomputation and reuse *)

Lemma invocations_EnvCall (t : list Event) (p : AseEnvironmentProvider)
    (a : Atoms) :
  invocations (t ++ [EnvCall p a]) = invocations t ++ [(p, a)].
Proof. unfold invocations. rewrite omap_app. reflexivity. Qed.

Lemma invocations_ConvCall (t : list Event) (p : FakeEnvironmentProvider)
    (d : Device) (a : Atoms) :
  invocations (t ++ [ConvCall p d a]) = invocations t.
Proof. unfold invocations. rewrite omap_app. simpl. apply app_nil_r. Qed.

Lemma snoc_neq {A : Type} (l : list A) (x : A) : l ++ [x] <> l.
Proof.
  intros Heq. apply (f_equal length) in Heq.
  rewrite length_app in Heq. simpl in Heq. lia.
Qed.

Lemma stale_recomputes (w : World) (a : Atoms) (kwargs : gmap string PyVal) :
  snd (needs_update a w) = Ok true -> recomputes a kwargs w.
Proof.
  intros Hstale. unfold recomputes.
  rewrite (call_stale _ _ kwargs Hstale).
  destruct (ase_neighbor_list _ (Atoms_copy a)); simpl.
  - rewrite invocations_ConvCall. apply invocations_EnvCall.
  - apply invocations_EnvCall.
Qed.

Lemma hit_reuses (w : World) (a : Atoms) (kwargs : gmap string PyVal) :
  snd (needs_update a w) = Ok false -> reuses a kwargs w.
Proof.
  intros Hhit. unfold reuses.
  rewrite (call_hit _ _ kwargs Hhit). simpl. auto.
Qed.

Lemma hit_not_recomputes (w : World) (a : Atoms)
    (kwargs : gmap string PyVal) :
  snd (needs_update a w) = Ok false -> ~ recomputes a kwargs w.
Proof.
  intros Hhit. unfold recomputes.
  rewrite (call_hit _ _ kwargs Hhit). simpl.
  rewrite invocations_ConvCall. intros Heq.
  symmetry in Heq. exact (snoc_neq _ _ Heq).
Qed.

Lemma raise_not_recomputes (w : World) (a : Atoms)
    (kwargs : gmap string PyVal) (e : Exception) :
  snd (needs_update a w) = Raise e -> ~ recomputes a kwargs w.
Proof.
  intros Hraise. unfold recomputes.
  rewrite (call_raise _ _ kwargs _ Hraise). simpl. intros Heq.
  symmetry in Heq. exact (snoc_neq _ _ Heq).
Qed.

Lemma raise_not_reuses (w : World) (a : Atoms)
    (kwargs : gmap string PyVal) (e : Exception) :
  snd (needs_update a w) = Raise e -> ~ reuses a kwargs w.
Proof.
  intros Hraise. unfold reuses.
  rewrite (call_raise _ _ kwargs _ Hraise). simpl. intros (_ & Heq & _).
  symmetry in Heq. exact (snoc_neq _ _ Heq).
Qed.

Ltac case_converter :=
  cbv zeta;
  match goal with
  | |- context [AtomsConverter ?P ?I ?p ?d ?a] =>
      destruct (AtomsConverter P I p d a)
  end.

(** The neighbourhood a call returns is the one the converter object holds
    when the call ends. *)
Lemma returned_neighborhood (w w' : World) (a : Atoms)
    (kwargs : gmap string PyVal) (r : Returned) :
  __call__ a kwargs w = (w', Ok r) ->
  Converted_neighborhood (Returned_Converted r) = neighborhood (self w').
Proof.
  destruct (snd (needs_update a w)) as [[|] | e] eqn:Hupd.
  - rewrite (call_stale _ _ kwargs Hupd).
    destruct (ase_neighbor_list _ (Atoms_copy a)); [| discriminate].
    case_converter; simpl; [| discriminate].
    unfold returned. intros [= <- <-].
    destruct (truthy _); reflexivity.
  - rewrite (call_hit _ _ kwargs Hupd).
    case_converter; simpl; [| discriminate].
    unfold returned. intros [= <- <-].
    destruct (truthy _); reflexivity.
  - rewrite (call_raise _ _ kwargs _ Hupd). discriminate.
Qed.

Lemma Atoms_copy_eq (a : Atoms) : Atoms_copy a = a.
Proof. destruct a. reflexivity. Qed.

(** *** The claims *)

(** C1, the failing case.  On an initialised converter whose cached
    configuration has no atoms, a call with a configuration of no atoms,
    with the cell and the periodic flags of the cached one, raises
    [ValueError]: [.max()] is taken of an empty array.  The call neither
    recomputes nor serves the cache, and it leaves the converter as it
    was. *)
Theorem C1_no_atoms_raises (w : World) (my : Atoms) (nb : Neighborhood)
    (a : Atoms) (kwargs : gmap string PyVal) :
  atoms (self w) = Some my ->
  neighborhood (self w) = Some nb ->
  get_positions my = [] ->
  get_positions a = [] ->
  ~ cell_differs (get_cell a) (get_cell my) ->
  ~ pbc_differs (get_pbc a) (get_pbc my) ->
  __call__ a kwargs w = (w, Raise ValueError) /\
  ~ recomputes a kwargs w /\
  ~ reuses a kwargs w.
Proof.
  intros Hmy _ Hmy0 Ha0 Hcell Hpbc.
  assert (Hraise : snd (needs_update a w) = Raise ValueError).
  { rewrite (needs_update_initialised _ _ _ Hmy). simpl.
    rewrite (_needs_update_positions _ _ _ Hmy Hcell Hpbc), Hmy0, Ha0.
    reflexivity. }
  split; [exact (call_raise _ _ kwargs _ Hraise) |].
  split; [exact (raise_not_recomputes _ _ _ _ Hraise)
         | exact (raise_not_reuses _ _ _ _ Hraise)].
Qed.

(** C2.  The first call on a freshly constructed converter is treated as
    stale and invokes the neighbour search exactly once. *)
Theorem C2_first_call_recomputes (cutoff0 skin0 : float64)
    (device0 : option Device) (w : World) (a : Atoms)
    (kwargs : gmap string PyVal) :
  __init__ cutoff0 device0 skin0 = Ok (self w) ->
  snd (needs_update a w) = Ok true /\
  recomputes a kwargs w /\
  length (invocations (trace (fst (__call__ a kwargs w)))) =
    S (length (invocations (trace w))).
Proof.
  unfold __init__. destruct (guess_device_settings device0) as [[dev st] | e];
    simpl; [| discriminate].
  intros [= Hself].
  assert (Hnone : atoms (self w) = None) by (rewrite <- Hself; reflexivity).
  assert (Hupd : snd (needs_update a w) = Ok true).
  { rewrite (needs_update_fresh _ _ Hnone). reflexivity. }
  split; [exact Hupd |].
  pose proof (stale_recomputes _ _ kwargs Hupd) as Hre.
  split; [exact Hre |].
  unfold recomputes in Hre. rewrite Hre, length_app. simpl. lia.
Qed.

(** The outcome of the staleness test decides the call. *)
Lemma call_decided (w : World) (a : Atoms) (kwargs : gmap string PyVal)
    (b : bool) :
  snd (needs_update a w) = Ok b ->
  (recomputes a kwargs w <-> b = true) /\
  (b = false -> reuses a kwargs w /\ ~ recomputes a kwargs w).
Proof.
  intros Hupd. destruct b.
  - split; [| discriminate].
    split; intros _; [reflexivity | apply stale_recomputes, Hupd].
  - split.
    + split; [| discriminate].
      intros Hre. exfalso. exact (hit_not_recomputes _ _ _ Hupd Hre).
    + intros _. split; [apply hit_reuses | apply hit_not_recomputes];
        exact Hupd.
Qed.

(** The value of the staleness test on an initialised converter, when
    neither operand of the comparison raises. *)
Lemma needs_update_value (w : World) (my a : Atoms) (m skin2 : float64) :
  atoms (self w) = Some my ->
  max_sq_displacement (get_positions my) (get_positions a) = Ok m ->
  float_pow2 (skin (self w)) = Ok skin2 ->
  snd (needs_update a w) =
    Ok (cell_ne_any (get_cell my) (get_cell a)
        || pbc_ne_any (get_pbc my) (get_pbc a)
        || fltb skin2 m).
Proof.
  intros Hmy Hm Hpow.
  rewrite (needs_update_initialised _ _ _ Hmy). simpl.
  unfold _needs_update. rewrite Hmy, Hm, Hpow. simpl.
  destruct (cell_ne_any _ _ || pbc_ne_any _ _); reflexivity.
Qed.

(** C3, amended.  With cell and periodic flags unchanged, the comparison is
    made on the values the code computes, and it is strict: the call
    recomputes exactly when the computed maximum of the squared
    displacements is greater than the computed square of the skin, and
    when the two are equal the call is served from the cache. *)
Theorem C3_skin_threshold_strict (w : World) (my a : Atoms)
    (kwargs : gmap string PyVal) (m skin2 : float64) :
  atoms (self w) = Some my ->
  ~ cell_differs (get_cell a) (get_cell my) ->
  ~ pbc_differs (get_pbc a) (get_pbc my) ->
  max_sq_displacement (get_positions my) (get_positions a) = Ok m ->
  float_pow2 (skin (self w)) = Ok skin2 ->
  (feqb m skin2 = true -> reuses a kwargs w /\ ~ recomputes a kwargs w) /\
  (recomputes a kwargs w <-> fltb skin2 m = true) /\
  (fltb skin2 m = false -> reuses a kwargs w).
Proof.
  intros Hmy Hcell Hpbc Hm Hpow.
  pose proof (needs_update_value w my a m skin2 Hmy Hm Hpow) as Hupd.
  rewrite (cell_ne_any_false _ _ Hcell), (pbc_ne_any_false _ _ Hpbc) in Hupd.
  simpl in Hupd.
  destruct (call_decided w a kwargs _ Hupd) as [Hiff Hhit].
  split; [| split; [exact Hiff |]].
  - intros Heq. apply Hhit, feqb_not_fltb, Heq.
  - intros Hle. apply Hhit, Hle.
Qed.

(** C4.  A change of any element of the cell, or of any periodic flag,
    makes the call on an initialised converter recompute, whatever the
    positions are. *)
Theorem C4_cell_or_pbc_change_recomputes (w : World) (my a : Atoms)
    (kwargs : gmap string PyVal) :
  atoms (self w) = Some my ->
  cell_differs (get_cell a) (get_cell my) \/
    pbc_differs (get_pbc a) (get_pbc my) ->
  snd (needs_update a w) = Ok true /\ recomputes a kwargs w.
Proof.
  intros Hmy Hchange.
  assert (Hupd : snd (needs_update a w) = Ok true).
  { rewrite (needs_update_initialised _ _ _ Hmy). simpl.
    apply (_needs_update_changed _ my); assumption. }
  split; [exact Hupd | apply stale_recomputes, Hupd].
Qed.

Lemma Vec3_eq_dec (p q : Vec3) : Vec3_eq p q \/ ~ Vec3_eq p q.
Proof.
  destruct p as [[p0 p1] p2], q as [[q0 q1] q2]. unfold Vec3_eq.
  destruct (feqb p0 q0), (feqb p1 q1), (feqb p2 q2);
    first [left; auto; fail | right; intros (? & ? & ?); discriminate].
Qed.

Lemma same_positions (new my : list Vec3) :
  ~ positions_differ new my ->
  forall i p q, new !! i = Some p -> my !! i = Some q -> Vec3_eq p q.
Proof.
  intros Hsame i p q Hp Hq.
  destruct (Vec3_eq_dec p q) as [Heq | Hne]; [exact Heq |].
  exfalso. apply Hsame. exists i, p, q. auto.
Qed.

(** C5, amended.  With a skin of zero, a call on an initialised converter
    (same number of atoms, at least one) recomputes exactly when some
    element of the cell differs, or some periodic flag differs, or the
    computed maximum of the squared displacements is greater than zero.  A
    configuration that differs from the cached one in no element of the
    cell, no flag and no position is served from the cache. *)
Theorem C5_skin_zero_recomputes_on_change (w : World) (my a : Atoms)
    (kwargs : gmap string PyVal) :
  feqb (skin (self w)) fzero = true ->
  atoms (self w) = Some my ->
  length (get_positions a) = length (get_positions my) ->
  (0 < length (get_positions a))%nat ->
  (recomputes a kwargs w <->
   cell_differs (get_cell a) (get_cell my) \/
   pbc_differs (get_pbc a) (get_pbc my) \/
   exists m : float64,
     max_sq_displacement (get_positions my) (get_positions a) = Ok m /\
     fltb fzero m = true) /\
  (~ configuration_differs a my ->
   reuses a kwargs w /\ ~ recomputes a kwargs w).
Proof.
  intros Hs Hmy Hlen Hpos.
  pose proof (float_pow2_zero _ Hs) as Hpow.
  destruct (max_sq_displacement_total (get_positions my) (get_positions a))
    as [m Hm]; [congruence | exact Hpos |].
  pose proof (needs_update_value w my a m fzero Hmy Hm Hpow) as Hupd.
  destruct (call_decided w a kwargs _ Hupd) as [Hiff Hhit].
  split.
  - rewrite Hiff, !orb_true_iff, cell_ne_any_iff, pbc_ne_any_iff. split.
    + intros [[Hc | Hp] | Hlt]; eauto.
    + intros [Hc | [Hp | (m' & Hm' & Hlt)]]; auto.
      right. congruence.
  - intros Hsame. apply Hhit.
    rewrite cell_ne_any_false, pbc_ne_any_false;
      [| intros Hp; apply Hsame; right; left; exact Hp
       | intros Hc; apply Hsame; left; exact Hc].
    simpl. apply (null_not_above_skin (self w)); [| exact Hpow].
    apply (max_sq_displacement_null _ _ _ (eq_sym Hlen)); [| exact Hm].
    apply same_positions. intros Hd. apply Hsame. right. right. exact Hd.
Qed.

(** C6.  A call that is not stale leaves [atoms] and [neighborhood] of the
    converter object as they were and invokes no neighbour search; and when
    it comes after a call that returned, what it returns carries the
    neighbourhood that the previous call returned. *)
Theorem C6_cache_hit_frame (w : World) (a : Atoms)
    (kwargs : gmap string PyVal) :
  snd (needs_update a w) = Ok false ->
  atoms (self (fst (__call__ a kwargs w))) = atoms (self w) /\
  neighborhood (self (fst (__call__ a kwargs w))) = neighborhood (self w) /\
  invocations (trace (fst (__call__ a kwargs w))) = invocations (trace w) /\
  reuses a kwargs w /\
  forall (w0 : World) (a0 : Atoms) (kwargs0 : gmap string PyVal)
         (r0 r : Returned),
    __call__ a0 kwargs0 w0 = (w, Ok r0) ->
    snd (__call__ a kwargs w) = Ok r ->
    Converted_neighborhood (Returned_Converted r) =
    Converted_neighborhood (Returned_Converted r0).
Proof.
  intros Hhit.
  pose proof (hit_reuses _ _ kwargs Hhit) as Hre.
  pose proof Hre as (Hself & Htrace & Hres).
  rewrite Hself.
  split; [reflexivity | split; [reflexivity |]].
  split; [rewrite Htrace; apply invocations_ConvCall |].
  split; [exact Hre |].
  intros w0 a0 kwargs0 r0 r Hprev Hr.
  rewrite (returned_neighborhood _ _ _ _ _ Hprev).
  rewrite <- Hself.
  apply (returned_neighborhood w _ a kwargs).
  rewrite <- Hr. apply surjective_pairing.
Qed.

Lemma call_environment_provider (w : World) (a : Atoms)
    (kwargs : gmap string PyVal) :
  environment_provider (self (fst (__call__ a kwargs w))) =
  environment_provider (self w).
Proof.
  destruct (snd (needs_update a w)) as [[|] | e] eqn:Hupd.
  - rewrite (call_stale _ _ kwargs Hupd).
    destruct (ase_neighbor_list _ (Atoms_copy a)); reflexivity.
  - rewrite (call_hit _ _ kwargs Hupd). reflexivity.
  - rewrite (call_raise _ _ kwargs _ Hupd). reflexivity.
Qed.

Lemma call_invocations (w : World) (a : Atoms) (kwargs : gmap string PyVal) :
  invocations (trace (fst (__call__ a kwargs w))) = invocations (trace w) \/
  invocations (trace (fst (__call__ a kwargs w))) =
    invocations (trace w) ++ [(environment_provider (self w), Atoms_copy a)].
Proof.
  destruct (snd (needs_update a w)) as [[|] | e] eqn:Hupd.
  - right. exact (stale_recomputes _ _ kwargs Hupd).
  - left. rewrite (call_hit _ _ kwargs Hupd). apply invocations_ConvCall.
  - left. rewrite (call_raise _ _ kwargs _ Hupd). reflexivity.
Qed.

(** Every invocation is made on the provider built by [__init__]. *)
Lemma calls_invocations (script : list (Atoms * gmap string PyVal))
    (w : World) (p : AseEnvironmentProvider) :
  environment_provider (self w) = p ->
  Forall (fun pa => pa.1 = p) (invocations (trace w)) ->
  Forall (fun pa => pa.1 = p) (invocations (trace (calls script w))).
Proof.
  revert w. induction script as [| [a kwargs] script IH]; intros w Hp Hall.
  - exact Hall.
  - unfold calls. simpl. apply IH.
    + rewrite call_environment_provider. exact Hp.
    + destruct (call_invocations w a kwargs) as [-> | ->]; [exact Hall |].
      apply Forall_app. split; [exact Hall |].
      apply Forall_singleton. exact Hp.
Qed.

Lemma calls_invocations_grow (script : list (Atoms * gmap string PyVal))
    (w : World) :
  exists rest, invocations (trace (calls script w)) =
               invocations (trace w) ++ rest.
Proof.
  revert w. induction script as [| [a kwargs] script IH]; intros w.
  - exists []. symmetry. apply app_nil_r.
  - unfold calls in *. simpl.
    destruct (IH (fst (__call__ a kwargs w))) as [rest Hrest].
    rewrite Hrest.
    destruct (call_invocations w a kwargs) as [-> | ->]; [eauto |].
    rewrite <- app_assoc. eauto.
Qed.

(** C7.  [__init__] stores [cutoff + skin], also as the cutoff of the
    provider it builds.  The first call on the constructed object invokes
    the neighbour search exactly once, with that cutoff, and what it
    returns is built from the output of that invocation; every invocation
    of the neighbour search by any sequence of calls is made with that
    cutoff, and a sequence that is not empty starts with the invocation of
    its first call. *)
Theorem C7_effective_cutoff (cutoff0 skin0 : float64)
    (device0 : option Device) (c : Converter) :
  __init__ cutoff0 device0 skin0 = Ok c ->
  cutoff c = fadd cutoff0 skin0 /\
  Ase_cutoff (environment_provider c) = fadd cutoff0 skin0 /\
  (forall (script : list (Atoms * gmap string PyVal)) (n : nat),
     Forall (fun pa => Ase_cutoff pa.1 = fadd cutoff0 skin0)
       (invocations
          (trace (calls script {| self := c; trace := []; ticks := n |})))) /\
  (forall (a : Atoms) (kwargs : gmap string PyVal) (n : nat) (r : Returned),
     snd (__call__ a kwargs {| self := c; trace := []; ticks := n |}) = Ok r ->
     exists io : Idx * Offset,
       ase_neighbor_list (fadd cutoff0 skin0) a = Ok io /\
       Converted_neighborhood (Returned_Converted r) =
         Some {| idx := fst io; offset := snd io |}) /\
  (forall (a : Atoms) (kwargs : gmap string PyVal) (n : nat),
     invocations
       (trace (fst (__call__ a kwargs
                      {| self := c; trace := []; ticks := n |}))) =
       [({| Ase_cutoff := fadd cutoff0 skin0 |}, Atoms_copy a)] /\
     snd (__call__ a kwargs {| self := c; trace := []; ticks := n |}) =
       Result_bind (ase_neighbor_list (fadd cutoff0 skin0) a) (fun io =>
         Result_bind
           (AtomsConverter _ _
              {| Fake_neighborhood :=
                   Some {| idx := fst io; offset := snd io |} |}
              (device c) a)
           (returned kwargs (Some {| idx := fst io; offset := snd io |})
              (if truthy (capture_nl_construction_time kwargs)
               then Some (clock (S n) - clock n) else None)))) /\
  (forall (a : Atoms) (kwargs : gmap string PyVal)
          (script : list (Atoms * gmap string PyVal)) (n : nat),
     exists rest,
       invocations
         (trace (calls ((a, kwargs) :: script)
                       {| self := c; trace := []; ticks := n |})) =
       ({| Ase_cutoff := fadd cutoff0 skin0 |}, Atoms_copy a) :: rest).
Proof.
  unfold __init__. destruct (guess_device_settings device0) as [[dev st] | e];
    simpl; [| discriminate].
  intros [= <-]. split; [reflexivity |]. split; [reflexivity |].
  assert (Hfirst : forall (a : Atoms) (kwargs : gmap string PyVal) (n : nat),
            snd (needs_update a
                   {| self := {| device := dev; skin := skin0;
                                 cutoff := fadd cutoff0 skin0;
                                 environment_provider :=
                                   {| Ase_cutoff := fadd cutoff0 skin0 |};
                                 atoms := None; neighborhood := None |};
                      trace := []; ticks := n |}) = Ok true).
  { intros a kwargs n. rewrite needs_update_fresh; reflexivity. }
  split; [| split; [| split]].
  - intros script n.
    eapply Forall_impl.
    + apply (calls_invocations script _
               {| Ase_cutoff := fadd cutoff0 skin0 |});
        [reflexivity | apply Forall_nil_2].
    + intros [p a] ->. reflexivity.
  - intros a kwargs n r.
    rewrite (call_stale _ _ kwargs (Hfirst a kwargs n)). simpl.
    rewrite Atoms_copy_eq.
    destruct (ase_neighbor_list (fadd cutoff0 skin0) a) as [io | e];
      simpl; [| discriminate].
    case_converter; simpl; [| discriminate].
    unfold returned. intros [= <-]. exists io. split; [reflexivity |].
    destruct (truthy _); reflexivity.
  - intros a kwargs n.
    rewrite (call_stale _ _ kwargs (Hfirst a kwargs n)). simpl.
    rewrite Atoms_copy_eq.
    destruct (ase_neighbor_list (fadd cutoff0 skin0) a) as [io | e];
      simpl; split; reflexivity.
  - intros a kwargs script n. unfold calls. simpl.
    match goal with
    | |- context [foldl ?f ?w1 script] =>
        destruct (calls_invocations_grow script w1) as [rest Hrest]
    end.
    unfold calls in Hrest. rewrite Hrest.
    pose proof (stale_recomputes _ _ kwargs (Hfirst a kwargs n)) as Hre.
    unfold recomputes in Hre. rewrite Hre. simpl. eauto.
Qed.

Hypothesis clock_monotonic : forall n : nat, clock n <= clock (S n).

(** C8.  When [nl_construction_time] is passed with a true value, the call
    returns a pair whose second component is [None] if the call did not
    recompute and a non-negative duration if it did; when it is absent or
    has a false value, the call returns the [Converted] tuple alone. *)
Theorem C8_timing_flag (w w' : World) (a : Atoms)
    (kwargs : gmap string PyVal) (r : Returned) :
  __call__ a kwargs w = (w', Ok r) ->
  ((exists v : PyVal,
      kwargs !! "nl_construction_time"%string = Some v /\ truthy v = true) ->
   (~ recomputes a kwargs w -> exists c : Converted, r = Timed c None) /\
   (recomputes a kwargs w ->
      exists (c : Converted) (t : Q), r = Timed c (Some t) /\ 0 <= t)) /\
  (kwargs !! "nl_construction_time"%string = None \/
   (exists v : PyVal,
      kwargs !! "nl_construction_time"%string = Some v /\ truthy v = false) ->
   exists c : Converted, r = Plain c).
Proof.
  intros Hcall.
  assert (Hflag : forall b : bool,
            truthy (capture_nl_construction_time kwargs) = b ->
            match b with
            | true =>
                (~ recomputes a kwargs w -> exists c, r = Timed c None) /\
                (recomputes a kwargs w ->
                   exists c t, r = Timed c (Some t) /\ 0 <= t)
            | false => exists c, r = Plain c
            end).
  { intros b Hb.
    destruct (snd (needs_update a w)) as [[|] | e] eqn:Hupd.
    - pose proof (stale_recomputes _ _ kwargs Hupd) as Hre.
      rewrite (call_stale _ _ kwargs Hupd) in Hcall.
      destruct (ase_neighbor_list _ (Atoms_copy a)); [| discriminate].
      revert Hcall. case_converter; simpl; [| discriminate].
      unfold returned. rewrite Hb. intros [= _ <-].
      destruct b; [| eauto]. split; [intros Hn; contradiction |].
      intros _. do 2 eexists. split; [reflexivity |].
      pose proof (clock_monotonic (ticks w)) as Hmono. lra.
    - pose proof (hit_not_recomputes _ _ kwargs Hupd) as Hn.
      rewrite (call_hit _ _ kwargs Hupd) in Hcall.
      revert Hcall. case_converter; simpl; [| discriminate].
      unfold returned. rewrite Hb. intros [= _ <-].
      destruct b; [| eauto]. split; [eauto | intros Hre; contradiction].
    - rewrite (call_raise _ _ kwargs _ Hupd) in Hcall. discriminate. }
  unfold capture_nl_construction_time in Hflag. split.
  - intros (v & Hv & Ht). apply (Hflag true). rewrite Hv. exact Ht.
  - intros [Hnone | (v & Hv & Hf)]; apply (Hflag false).
    + rewrite Hnone. reflexivity.
    + rewrite Hv. exact Hf.
Qed.

(** C9.  The provider handed to the representation converter by a call is
    built from the neighbourhood the converter object holds at that point,
    which is the one it holds when the call ends; its answer does not depend
    on the configuration it is queried with, and is the [idx] and [offset]
    of that neighbourhood.  [Fake_get_environment] has no access to the
    neighbour search, so nothing is recomputed. *)
Theorem C9_fake_provider_answers_from_cache (w : World) (a : Atoms)
    (kwargs : gmap string PyVal) :
  exists evs : list Event,
    trace (fst (__call__ a kwargs w)) = trace w ++ evs /\
    forall (p : FakeEnvironmentProvider) (d : Device) (a1 : Atoms),
      ConvCall p d a1 ∈ evs ->
      p = {| Fake_neighborhood :=
               neighborhood (self (fst (__call__ a kwargs w))) |} /\
      (forall a' a'' : Atoms, get_environment p a' = get_environment p a'') /\
      forall nb : Neighborhood,
        neighborhood (self (fst (__call__ a kwargs w))) = Some nb ->
        forall a' : Atoms, get_environment p a' = Ok (idx nb, offset nb).
Proof.
  assert (Hfake : forall (nb0 : option Neighborhood) (nb : Neighborhood),
            nb0 = Some nb ->
            forall a' : Atoms,
              get_environment {| Fake_neighborhood := nb0 |} a' =
              Ok (idx nb, offset nb)).
  { intros nb0 nb -> a'. reflexivity. }
  destruct (snd (needs_update a w)) as [[|] | e] eqn:Hupd.
  - rewrite (call_stale _ _ kwargs Hupd).
    destruct (ase_neighbor_list _ (Atoms_copy a)) as [io | e]; simpl.
    + eexists. split; [symmetry; apply app_assoc |].
      intros p d a1 Hin.
      apply elem_of_cons in Hin as [[=] | Hin].
      apply list_elem_of_singleton in Hin as [= -> _ _].
      split; [reflexivity |].
      split; [reflexivity | intros nb Hnb a'; apply Hfake, Hnb].
    + eexists. split; [reflexivity |].
      intros p d a1 Hin. apply list_elem_of_singleton in Hin. discriminate.
  - rewrite (call_hit _ _ kwargs Hupd). simpl.
    eexists. split; [reflexivity |].
    intros p d a1 Hin. apply list_elem_of_singleton in Hin as [= -> _ _].
    split; [reflexivity |].
    split; [reflexivity | intros nb Hnb a'; apply Hfake, Hnb].
  - rewrite (call_raise _ _ kwargs _ Hupd). simpl.
    exists []. split; [symmetry; apply app_nil_r |].
    intros p d a1 Hin. apply elem_of_nil in Hin. contradiction.
Qed.

(** C10.  When the neighbour search raises during a stale call, the
    exception leaves the call with [atoms] already replaced by a copy of
    the incoming configuration and [neighborhood] still the previous value,
    although the neighbour search has no result for the configuration now
    held. *)
Theorem C10_not_atomic_on_error (w : World) (a : Atoms)
    (kwargs : gmap string PyVal) (e : Exception) :
  snd (needs_update a w) = Ok true ->
  get_environment (environment_provider (self w)) (Atoms_copy a) = Raise e ->
  let w' := fst (__call__ a kwargs w) in
  snd (__call__ a kwargs w) = Raise e /\
  atoms (self w') = Some (Atoms_copy a) /\
  neighborhood (self w') = neighborhood (self w) /\
  forall held : Atoms,
    atoms (self w') = Some held ->
    get_environment (environment_provider (self w')) held = Raise e.
Proof.
  intros Hstale Hraise w'. subst w'.
  rewrite (call_stale _ _ kwargs Hstale).
  unfold get_environment, Ase_get_environment in *.
  rewrite Hraise. simpl.
  split; [reflexivity |]. split; [reflexivity |]. split; [reflexivity |].
  intros held [= <-]. exact Hraise.
Qed.

End Properties.

(** ** The claims on the concrete instance *)

Lemma demo_clock_monotonic (n : nat) :
  @clock demo_externals n <= @clock demo_externals (S n).
Proof. simpl. rewrite <- Zle_Qle. lia. Qed.

Lemma C1_no_atoms_raises_witness :
  __call__ no_atoms no_kwargs w_no_atoms = (w_no_atoms, Raise ValueError) /\
  ~ recomputes no_atoms no_kwargs w_no_atoms /\
  ~ reuses no_atoms no_kwargs w_no_atoms.
Proof.
  apply (C1_no_atoms_raises w_no_atoms no_atoms
           {| idx := []; offset := [] |}).
  - vm_compute. reflexivity.
  - vm_compute. reflexivity.
  - reflexivity.
  - reflexivity.
  - apply cell_differs_irrefl_finite. vm_compute. reflexivity.
  - apply pbc_differs_irrefl.
Defined.

Lemma C2_first_call_recomputes_witness :
  snd (needs_update C0 (fresh_world (fz 5) (fq 1 10))) = Ok true /\
  recomputes C0 timing (fresh_world (fz 5) (fq 1 10)) /\
  length (invocations
            (trace (fst (__call__ C0 timing
                           (fresh_world (fz 5) (fq 1 10)))))) =
    S (length (invocations (trace (fresh_world (fz 5) (fq 1 10))))).
Proof.
  apply (C2_first_call_recomputes (H := demo_externals)
           (fz 5) (fq 1 10) None).
  reflexivity.
Defined.

(** C3 as stated fails in both directions on the numbers the code computes
    with; cell and periodic flags are unchanged in both cases.  An atom
    cached at [x = -2 ** -60] and found at [x = 0.5] has moved by
    [0.5 + 2 ** -60], more than the skin of 0.5, and the call is served
    from the cache: the difference of the positions rounds to 0.5.  An atom
    cached at the origin and found at [(3 k, 4 k, 0)] has moved by the skin
    [5 k] exactly, and the call recomputes: the sum of the rounded squares
    is above the rounded square of the skin. *)
Lemma C3_counterexample_rounding :
  (skin (self w_left) = fq 1 2 /\
   atoms (self w_left) = Some left_of_origin /\
   get_cell at_half = get_cell left_of_origin /\
   get_pbc at_half = get_pbc left_of_origin /\
   F2Q (fq 1 2) == 1 # 2 /\
   F2Q (fq 1 2) - F2Q (fexact (-1) (-60)) ==
     F2Q (fq 1 2) + (1 # 1152921504606846976) /\
   reuses at_half no_kwargs w_left /\
   ~ recomputes at_half no_kwargs w_left) /\
  (skin (self w_triangle) = side5 /\
   atoms (self w_triangle) = Some one_atom /\
   get_cell at_corner = get_cell one_atom /\
   get_pbc at_corner = get_pbc one_atom /\
   (F2Q side3 - 0) ^ 2 + (F2Q side4 - 0) ^ 2 + (0 - 0) ^ 2 ==
     F2Q side5 ^ 2 /\
   0 < F2Q side5 /\
   recomputes at_corner no_kwargs w_triangle /\
   ~ reuses at_corner no_kwargs w_triangle).
Proof.
  assert (Hhit : snd (needs_update at_half w_left) = Ok false)
    by (vm_compute; reflexivity).
  assert (Hstale : snd (needs_update at_corner w_triangle) = Ok true)
    by (vm_compute; reflexivity).
  split.
  - split; [vm_compute; reflexivity |].
    split; [vm_compute; reflexivity |].
    split; [reflexivity |]. split; [reflexivity |].
    split; [vm_compute; reflexivity |].
    split; [vm_compute; reflexivity |].
    split; [exact (hit_reuses _ _ _ Hhit)
           | exact (hit_not_recomputes _ _ _ Hhit)].
  - split; [vm_compute; reflexivity |].
    split; [vm_compute; reflexivity |].
    split; [reflexivity |]. split; [reflexivity |].
    split; [vm_compute; reflexivity |].
    split; [vm_compute; reflexivity |].
    pose proof (stale_recomputes _ _ no_kwargs Hstale) as Hre.
    split; [exact Hre |].
    intros (_ & Htrace & _). unfold recomputes in Hre.
    rewrite Htrace in Hre. vm_compute in Hre. discriminate Hre.
Qed.

(** A move by the skin of 0.5 whose numbers are all exact: the computed
    maximum is 0.25, the computed square of the skin is 0.25, and the call
    is served from the cache. *)
Lemma C3_skin_threshold_strict_witness :
  (feqb (fq 1 4) (fq 1 4) = true ->
   reuses (C0_moved (fq 1 2)) no_kwargs w_half /\
   ~ recomputes (C0_moved (fq 1 2)) no_kwargs w_half) /\
  (recomputes (C0_moved (fq 1 2)) no_kwargs w_half <->
   fltb (fq 1 4) (fq 1 4) = true) /\
  (fltb (fq 1 4) (fq 1 4) = false ->
   reuses (C0_moved (fq 1 2)) no_kwargs w_half).
Proof.
  apply (C3_skin_threshold_strict w_half C0 (C0_moved (fq 1 2)) no_kwargs
           (fq 1 4) (fq 1 4)).
  - vm_compute. reflexivity.
  - apply cell_differs_irrefl_finite. vm_compute. reflexivity.
  - apply pbc_differs_irrefl.
  - vm_compute. reflexivity.
  - vm_compute. reflexivity.
Defined.

Lemma C4_cell_or_pbc_change_recomputes_witness :
  snd (needs_update C0_periodic w_C0) = Ok true /\
  recomputes C0_periodic no_kwargs w_C0.
Proof.
  apply (C4_cell_or_pbc_change_recomputes w_C0 C0).
  - vm_compute. reflexivity.
  - right. exists 0%nat, true, false.
    split; [reflexivity | split; [reflexivity | discriminate]].
Defined.

(** C5 as stated fails: with a skin of zero, the call with the configuration
    that is already cached does not recompute; it is served from the
    cache. *)
Lemma C5_counterexample_identical :
  skin (self w_zero_skin) = fzero /\
  atoms (self w_zero_skin) = Some C0 /\
  ~ recomputes C0 no_kwargs w_zero_skin /\
  reuses C0 no_kwargs w_zero_skin.
Proof.
  assert (Hhit : snd (needs_update C0 w_zero_skin) = Ok false)
    by (vm_compute; reflexivity).
  split; [reflexivity |].
  split; [vm_compute; reflexivity |].
  split; [exact (hit_not_recomputes _ _ _ Hhit) | exact (hit_reuses _ _ _ Hhit)].
Qed.

Lemma C5_skin_zero_recomputes_on_change_witness :
  (recomputes (C0_moved (fq 1 1000)) no_kwargs w_zero_skin <->
   cell_differs (get_cell (C0_moved (fq 1 1000))) (get_cell C0) \/
   pbc_differs (get_pbc (C0_moved (fq 1 1000))) (get_pbc C0) \/
   exists m : float64,
     max_sq_displacement (get_positions C0)
                         (get_positions (C0_moved (fq 1 1000))) = Ok m /\
     fltb fzero m = true) /\
  (~ configuration_differs (C0_moved (fq 1 1000)) C0 ->
   reuses (C0_moved (fq 1 1000)) no_kwargs w_zero_skin /\
   ~ recomputes (C0_moved (fq 1 1000)) no_kwargs w_zero_skin).
Proof.
  apply (C5_skin_zero_recomputes_on_change w_zero_skin C0).
  - reflexivity.
  - vm_compute. reflexivity.
  - reflexivity.
  - simpl. lia.
Defined.

(** With a skin of zero, a move so small that its square is not a float is
    served from the cache although a position has changed. *)
Example skin_zero_small_move_served_from_cache :
  skin (self w_zero_skin) = fzero /\
  atoms (self w_zero_skin) = Some C0 /\
  configuration_differs C0_nudged C0 /\
  reuses C0_nudged no_kwargs w_zero_skin /\
  ~ recomputes C0_nudged no_kwargs w_zero_skin.
Proof.
  assert (Hhit : snd (needs_update C0_nudged w_zero_skin) = Ok false)
    by (vm_compute; reflexivity).
  split; [reflexivity |].
  split; [vm_compute; reflexivity |].
  split.
  { right. right. exists 0%nat. do 2 eexists.
    split; [reflexivity | split; [reflexivity |]].
    intros (Hx & _). vm_compute in Hx. discriminate Hx. }
  split; [exact (hit_reuses _ _ _ Hhit) | exact (hit_not_recomputes _ _ _ Hhit)].
Qed.

Lemma C6_cache_hit_frame_witness :
  atoms (self (fst (__call__ (C0_moved (fq 1 20)) timing w_C0))) =
    atoms (self w_C0) /\
  neighborhood (self (fst (__call__ (C0_moved (fq 1 20)) timing w_C0))) =
    neighborhood (self w_C0) /\
  invocations (trace (fst (__call__ (C0_moved (fq 1 20)) timing w_C0))) =
    invocations (trace w_C0) /\
  reuses (C0_moved (fq 1 20)) timing w_C0 /\
  forall (w0 : World) (a0 : Atoms) (kwargs0 : gmap string PyVal)
         (r0 r : Returned),
    __call__ a0 kwargs0 w0 = (w_C0, Ok r0) ->
    snd (__call__ (C0_moved (fq 1 20)) timing w_C0) = Ok r ->
    Converted_neighborhood (Returned_Converted r) =
    Converted_neighborhood (Returned_Converted r0).
Proof.
  apply (C6_cache_hit_frame w_C0 (C0_moved (fq 1 20)) timing).
  vm_compute. reflexivity.
Defined.

(** Scenario A: [Converter(5.0, skin=0.1)] called with [C0] recomputes and
    returns what the neighbour search gives for [C0] with cutoff 5.1;
    [5.0 + 0.1] is the float [5.1]. *)
Lemma C7_effective_cutoff_witness :
  (cutoff (demo_converter (fz 5) (fq 1 10)) = fadd (fz 5) (fq 1 10) /\
   Ase_cutoff (environment_provider (demo_converter (fz 5) (fq 1 10))) =
     fadd (fz 5) (fq 1 10) /\
   (forall (script : list (Atoms * gmap string PyVal)) (n : nat),
      Forall (fun pa => Ase_cutoff pa.1 = fadd (fz 5) (fq 1 10))
        (invocations
           (trace (calls script {| self := demo_converter (fz 5) (fq 1 10);
                                   trace := []; ticks := n |})))) /\
   (forall (a : Atoms) (kwargs : gmap string PyVal) (n : nat) (r : Returned),
      snd (__call__ a kwargs {| self := demo_converter (fz 5) (fq 1 10);
                                trace := []; ticks := n |}) = Ok r ->
      exists io : Idx * Offset,
        demo_neighbor_list (fadd (fz 5) (fq 1 10)) a = Ok io /\
        Converted_neighborhood (Returned_Converted r) =
          Some {| idx := fst io; offset := snd io |}) /\
   (forall (a : Atoms) (kwargs : gmap string PyVal) (n : nat),
      invocations
        (trace (fst (__call__ a kwargs
                       {| self := demo_converter (fz 5) (fq 1 10);
                          trace := []; ticks := n |}))) =
        [({| Ase_cutoff := fadd (fz 5) (fq 1 10) |}, Atoms_copy a)] /\
      snd (__call__ a kwargs {| self := demo_converter (fz 5) (fq 1 10);
                                trace := []; ticks := n |}) =
        Result_bind (demo_neighbor_list (fadd (fz 5) (fq 1 10)) a) (fun io =>
          Result_bind
            (@AtomsConverter demo_externals _ _
               {| Fake_neighborhood :=
                    Some {| idx := fst io; offset := snd io |} |}
               (device (demo_converter (fz 5) (fq 1 10))) a)
            (returned kwargs (Some {| idx := fst io; offset := snd io |})
               (if truthy (capture_nl_construction_time kwargs)
                then Some (@clock demo_externals (S n) -
                           @clock demo_externals n)
                else None)))) /\
   (forall (a : Atoms) (kwargs : gmap string PyVal)
           (script : list (Atoms * gmap string PyVal)) (n : nat),
      exists rest,
        invocations
          (trace (calls ((a, kwargs) :: script)
                        {| self := demo_converter (fz 5) (fq 1 10);
                           trace := []; ticks := n |})) =
        ({| Ase_cutoff := fadd (fz 5) (fq 1 10) |}, Atoms_copy a) :: rest)) /\
  fadd (fz 5) (fq 1 10) = fq 51 10 /\
  recomputes C0 no_kwargs (fresh_world (fz 5) (fq 1 10)) /\
  snd (__call__ C0 no_kwargs (fresh_world (fz 5) (fq 1 10))) =
    Ok (Plain C0_converted) /\
  demo_neighbor_list (fq 51 10) C0 =
    Ok (idx C0_neighborhood, offset C0_neighborhood).
Proof.
  split.
  - apply (C7_effective_cutoff (H := demo_externals) (fz 5) (fq 1 10) None
             (demo_converter (fz 5) (fq 1 10))).
    reflexivity.
  - split; [vm_compute; reflexivity |].
    split; [apply stale_recomputes; reflexivity |].
    split; [reflexivity | vm_compute; reflexivity].
Defined.

(** Scenario B: after [C0], a configuration with every atom within the skin
    is served from the cache and returns the neighbourhood of scenario A. *)
Example scenario_B :
  reuses (C0_moved (fq 1 20)) no_kwargs w_C0 /\
  ~ recomputes (C0_moved (fq 1 20)) no_kwargs w_C0 /\
  neighborhood (self w_C0) = Some C0_neighborhood.
Proof.
  assert (Hhit : snd (needs_update (C0_moved (fq 1 20)) w_C0) = Ok false)
    by (vm_compute; reflexivity).
  split; [exact (hit_reuses _ _ _ Hhit) |].
  split; [exact (hit_not_recomputes _ _ _ Hhit) | vm_compute; reflexivity].
Qed.

(** Scenario C: one atom moved by 0.2, more than the skin, recomputes. *)
Example scenario_C : recomputes (C0_moved (fq 1 5)) no_kwargs w_C0.
Proof. apply stale_recomputes. vm_compute. reflexivity. Qed.

(** Scenario D: [C0] made periodic in one direction recomputes although no
    atom has moved. *)
Example scenario_D :
  get_positions C0_periodic = get_positions C0 /\
  recomputes C0_periodic no_kwargs w_C0.
Proof.
  split; [reflexivity |]. apply stale_recomputes. vm_compute. reflexivity.
Qed.

Lemma C8_timing_flag_witness :
  __call__ C0 timing (fresh_world (fz 5) (fq 1 10)) =
    (w_timed, Ok (Timed C0_converted (Some 1))) /\
  ((exists v : PyVal,
      timing !! "nl_construction_time"%string = Some v /\ truthy v = true) ->
   (~ recomputes C0 timing (fresh_world (fz 5) (fq 1 10)) ->
      exists c : Converted, Timed C0_converted (Some 1) = Timed c None) /\
   (recomputes C0 timing (fresh_world (fz 5) (fq 1 10)) ->
      exists (c : Converted) (t : Q),
        Timed C0_converted (Some 1) = Timed c (Some t) /\ 0 <= t)) /\
  (timing !! "nl_construction_time"%string = None \/
   (exists v : PyVal,
      timing !! "nl_construction_time"%string = Some v /\
      truthy v = false) ->
   exists c : Converted, Timed C0_converted (Some 1) = Plain c).
Proof.
  assert (Hcall : __call__ C0 timing (fresh_world (fz 5) (fq 1 10)) =
                  (w_timed, Ok (Timed C0_converted (Some 1))))
    by reflexivity.
  split; [exact Hcall |].
  exact (C8_timing_flag (H := demo_externals) demo_clock_monotonic
           (fresh_world (fz 5) (fq 1 10)) w_timed C0 timing
           (Timed C0_converted (Some 1)) Hcall).
Defined.

Lemma C9_fake_provider_answers_from_cache_witness :
  exists evs : list Event,
    trace (fst (__call__ (C0_moved (fq 1 20)) no_kwargs w_C0)) =
      trace w_C0 ++ evs /\
    forall (p : FakeEnvironmentProvider) (d : Device) (a1 : Atoms),
      ConvCall p d a1 ∈ evs ->
      p = {| Fake_neighborhood :=
               neighborhood
                 (self (fst (__call__ (C0_moved (fq 1 20)) no_kwargs w_C0))) |}
      /\
      (forall a' a'' : Atoms, get_environment p a' = get_environment p a'') /\
      forall nb : Neighborhood,
        neighborhood
          (self (fst (__call__ (C0_moved (fq 1 20)) no_kwargs w_C0))) =
          Some nb ->
        forall a' : Atoms, get_environment p a' = Ok (idx nb, offset nb).
Proof.
  exact (C9_fake_provider_answers_from_cache w_C0 (C0_moved (fq 1 20))
           no_kwargs).
Defined.

Lemma C10_not_atomic_on_error_witness :
  snd (__call__ C0_singular no_kwargs w_C0) =
    Raise (ExternalError "singular cell") /\
  atoms (self w_failed) = Some (Atoms_copy C0_singular) /\
  neighborhood (self w_failed) = neighborhood (self w_C0) /\
  forall held : Atoms,
    atoms (self w_failed) = Some held ->
    @get_environment _ (@Ase_get_environment demo_externals)
      (environment_provider (self w_failed)) held =
      Raise (ExternalError "singular cell").
Proof.
  apply (C10_not_atomic_on_error w_C0 C0_singular no_kwargs).
  - vm_compute. reflexivity.
  - vm_compute. reflexivity.
Defined.

(** After the neighbour search has raised, the next call with the same
    configuration is a cache hit and returns the neighbourhood computed for
    the configuration before it. *)
Example stale_neighborhood_served_after_error :
  atoms (self w_failed) = Some C0_singular /\
  snd (needs_update C0_singular w_failed) = Ok false /\
  neighborhood (self w_C0) = Some C0_neighborhood /\
  snd (__call__ C0_singular no_kwargs w_failed) =
    Ok (Plain {| inputs := ((get_positions C0_singular,
                             (idx C0_neighborhood, offset C0_neighborhood))
                            : @Inputs demo_externals);
                 Converted_neighborhood := Some C0_neighborhood |}).
Proof.
  split; [vm_compute; reflexivity |].
  split; [vm_compute; reflexivity |].
  split; [vm_compute; reflexivity | reflexivity].
Qed.

(** * Further properties of the code *)

Section FurtherProperties.

Context `{Externals}.

(** ** Helper lemmas *)

Ltac case_AtomsConverter :=
  cbv zeta;
  match goal with
  | |- context [AtomsConverter ?P ?I ?p ?d ?a] =>
      destruct (AtomsConverter P I p d a) eqn:?
  end.

Lemma needs_update_result (w : World) (a : Atoms) :
  snd (needs_update a w) =
    match atoms (self w) with
    | None => Ok true
    | Some _ => _needs_update (self w) a
    end.
Proof.
  destruct (atoms (self w)) as [my |] eqn:Hmy.
  - rewrite (needs_update_initialised _ _ _ Hmy). reflexivity.
  - rewrite (needs_update_fresh _ _ Hmy). reflexivity.
Qed.

(** Against itself a configuration whose cell compares equal to itself is
    never found stale: the decision is [False], or an exception. *)
Lemma _needs_update_same (c : Converter) (a : Atoms) :
  atoms c = Some (Atoms_copy a) ->
  ~ cell_differs (get_cell a) (get_cell a) ->
  _needs_update c a <> Ok true.
Proof.
  intros Hmy Hcell.
  rewrite (_needs_update_positions c (Atoms_copy a) a Hmy);
    [| rewrite Atoms_copy_eq; exact Hcell
     | rewrite Atoms_copy_eq; apply pbc_differs_irrefl].
  rewrite Atoms_copy_eq.
  destruct (max_sq_displacement (get_positions a) (get_positions a))
    as [m | e] eqn:Hm; simpl; [| discriminate].
  destruct (float_pow2 (skin c)) as [skin2 | e] eqn:Hpow; simpl;
    [| discriminate].
  rewrite (null_not_above_skin c m skin2); [discriminate | | exact Hpow].
  exact (max_sq_displacement_self _ _ Hm).
Qed.

(** The outcome of [needs_update] only depends on the converter object. *)
Lemma needs_update_self (w1 w2 : World) (a : Atoms) :
  self w1 = self w2 -> snd (needs_update a w1) = snd (needs_update a w2).
Proof. intros Heq. rewrite !needs_update_result, Heq. reflexivity. Qed.

(** A call that does not end in [Raise] from the staleness test leaves
    invocations as [call_invocations] says; here: no [Ok true], no search. *)
Lemma not_stale_no_search (w : World) (a : Atoms)
    (kwargs : gmap string PyVal) :
  snd (needs_update a w) <> Ok true ->
  invocations (trace (fst (__call__ a kwargs w))) = invocations (trace w).
Proof.
  intros Hns.
  destruct (snd (needs_update a w)) as [[|] | e] eqn:Hupd.
  - contradiction.
  - rewrite (call_hit _ _ kwargs Hupd). apply invocations_ConvCall.
  - rewrite (call_raise _ _ kwargs _ Hupd). reflexivity.
Qed.

(** The converter object after a stale call holds a copy of the incoming
    configuration, whether or not the neighbour search raised. *)
Lemma stale_atoms (w : World) (a : Atoms) (kwargs : gmap string PyVal) :
  snd (needs_update a w) = Ok true ->
  atoms (self (fst (__call__ a kwargs w))) = Some (Atoms_copy a).
Proof.
  intros Hupd. rewrite (call_stale _ _ kwargs Hupd).
  destruct (ase_neighbor_list _ (Atoms_copy a)); reflexivity.
Qed.

Lemma capture_insert_ne (kwargs : gmap string PyVal) (k : string)
    (v : PyVal) :
  k <> "nl_construction_time"%string ->
  capture_nl_construction_time (<[k := v]> kwargs) =
  capture_nl_construction_time kwargs.
Proof.
  intros Hne. unfold capture_nl_construction_time.
  rewrite lookup_insert_ne by exact Hne. reflexivity.
Qed.

Lemma capture_delete_ne (kwargs : gmap string PyVal) (k : string) :
  k <> "nl_construction_time"%string ->
  capture_nl_construction_time (delete k kwargs) =
  capture_nl_construction_time kwargs.
Proof.
  intros Hne. unfold capture_nl_construction_time.
  rewrite lookup_delete_ne by exact Hne. reflexivity.
Qed.

(** ** Keyword arguments *)

(** X1.  A keyword argument named [atoms] or [self] collides with a
    parameter of [__call__], and the call raises [TypeError] before the
    body runs.  Of the keywords that reach the body, only
    [nl_construction_time] is read: adding, replacing or removing any
    other one changes neither what the call returns nor the world it
    leaves. *)
Theorem X1_other_kwargs_ignored (w : World) (a : Atoms)
    (kwargs : gmap string PyVal) (k : string) (v : PyVal) :
  k <> "nl_construction_time"%string ->
  k <> "self"%string ->
  k <> "atoms"%string ->
  Converter_call a (<[k := v]> kwargs) w = Converter_call a kwargs w /\
  Converter_call a (delete k kwargs) w = Converter_call a kwargs w /\
  Converter_call a (<["atoms"%string := v]> kwargs) w =
    (w, Raise TypeError) /\
  Converter_call a (<["self"%string := v]> kwargs) w = (w, Raise TypeError).
Proof.
  intros Hne Hself Hatoms. unfold Converter_call.
  rewrite !(lookup_insert_ne kwargs k) by assumption.
  rewrite !(lookup_delete_ne kwargs k) by assumption.
  rewrite !lookup_insert_eq.
  split; [| split; [| split]].
  - destruct (kwargs !! "self"%string), (kwargs !! "atoms"%string);
      try reflexivity.
    unfold __call__. rewrite (capture_insert_ne _ _ v Hne). reflexivity.
  - destruct (kwargs !! "self"%string), (kwargs !! "atoms"%string);
      try reflexivity.
    unfold __call__. rewrite (capture_delete_ne _ _ Hne). reflexivity.
  - destruct (<["atoms"%string := v]> kwargs !! "self"%string); reflexivity.
  - reflexivity.
Qed.

(** X2.  Asking for the timing only adds the duration to what is returned
    and the readings of the clock to what is done: for any two sets of
    keyword arguments that reach the body, the call leaves the same
    converter object, invokes the neighbour search and the representation
    converter on the same arguments in the same order, and returns the
    same [Converted] tuple or raises the same exception.  When the two
    sets agree on the truth of [nl_construction_time], the two calls do not
    differ at all. *)
Theorem X2_timing_does_not_change_the_work (w : World) (a : Atoms)
    (kwargs1 kwargs2 : gmap string PyVal) :
  reaches_body kwargs1 ->
  reaches_body kwargs2 ->
  self (fst (Converter_call a kwargs1 w)) =
    self (fst (Converter_call a kwargs2 w)) /\
  trace (fst (Converter_call a kwargs1 w)) =
    trace (fst (Converter_call a kwargs2 w)) /\
  Result_map Returned_Converted (snd (Converter_call a kwargs1 w)) =
    Result_map Returned_Converted (snd (Converter_call a kwargs2 w)) /\
  (truthy (capture_nl_construction_time kwargs1) =
     truthy (capture_nl_construction_time kwargs2) ->
   Converter_call a kwargs1 w = Converter_call a kwargs2 w).
Proof.
  intros [Hs1 Ha1] [Hs2 Ha2]. unfold Converter_call.
  rewrite Hs1, Ha1, Hs2, Ha2.
  split; [| split; [| split]].
  4: { intros Hflag. unfold __call__. rewrite Hflag. reflexivity. }
  all: destruct (snd (needs_update a w)) as [[|] | e] eqn:Hupd;
    [ rewrite (call_stale _ _ kwargs1 Hupd), (call_stale _ _ kwargs2 Hupd);
      destruct (ase_neighbor_list _ (Atoms_copy a)) as [io | e]; simpl;
      try reflexivity
    | rewrite (call_hit _ _ kwargs1 Hupd), (call_hit _ _ kwargs2 Hupd); simpl;
      try reflexivity
    | rewrite (call_raise _ _ kwargs1 _ Hupd),
        (call_raise _ _ kwargs2 _ Hupd); reflexivity ].
  all: case_AtomsConverter; simpl; [| reflexivity];
    unfold returned; do 2 destruct (truthy _); reflexivity.
Qed.

(** X3.  A second call with the same configuration never invokes the
    neighbour search, whatever the first call did (recomputed, reused, or
    raised) and whatever keyword arguments the two calls get, provided
    every element of the cell compares equal to itself (none is NaN). *)
Theorem X3_repeated_call_does_not_search (w : World) (a : Atoms)
    (kwargs kwargs' : gmap string PyVal) :
  ~ cell_differs (get_cell a) (get_cell a) ->
  invocations (trace (fst (__call__ a kwargs' (fst (__call__ a kwargs w))))) =
  invocations (trace (fst (__call__ a kwargs w))).
Proof.
  intros Hcell. apply not_stale_no_search.
  destruct (snd (needs_update a w)) as [[|] | e] eqn:Hupd.
  - pose proof (stale_atoms _ _ kwargs Hupd) as Hat.
    rewrite needs_update_result, Hat.
    exact (_needs_update_same _ _ Hat Hcell).
  - rewrite (needs_update_self _ w); [rewrite Hupd; discriminate |].
    rewrite (call_hit _ _ kwargs Hupd). reflexivity.
  - rewrite (call_raise _ _ kwargs _ Hupd). simpl. rewrite Hupd. discriminate.
Qed.

(** ** What a sequence of calls keeps *)

Lemma call_settings (w : World) (a : Atoms) (kwargs : gmap string PyVal) :
  device (self (fst (__call__ a kwargs w))) = device (self w) /\
  skin (self (fst (__call__ a kwargs w))) = skin (self w) /\
  cutoff (self (fst (__call__ a kwargs w))) = cutoff (self w) /\
  environment_provider (self (fst (__call__ a kwargs w))) =
    environment_provider (self w).
Proof.
  destruct (snd (needs_update a w)) as [[|] | e] eqn:Hupd.
  - rewrite (call_stale _ _ kwargs Hupd).
    destruct (ase_neighbor_list _ (Atoms_copy a)); simpl; auto.
  - rewrite (call_hit _ _ kwargs Hupd). simpl. auto.
  - rewrite (call_raise _ _ kwargs _ Hupd). simpl. auto.
Qed.

(** X4.  No sequence of calls changes the settings chosen at construction:
    device, skin, effective cutoff and the provider of the neighbour search
    are those of the object the sequence started with. *)
Theorem X4_settings_never_change
    (script : list (Atoms * gmap string PyVal)) (w : World) :
  device (self (calls script w)) = device (self w) /\
  skin (self (calls script w)) = skin (self w) /\
  cutoff (self (calls script w)) = cutoff (self w) /\
  environment_provider (self (calls script w)) =
    environment_provider (self w).
Proof.
  revert w. induction script as [| [a kwargs] script IH]; intros w.
  - simpl. auto.
  - unfold calls in *. simpl.
    destruct (IH (fst (__call__ a kwargs w))) as (Hd & Hs & Hc & Hp).
    destruct (call_settings w a kwargs) as (Hd' & Hs' & Hc' & Hp').
    rewrite Hd, Hs, Hc, Hp. auto.
Qed.

Lemma call_coherent (w : World) (a : Atoms) (kwargs : gmap string PyVal) :
  coherent (self w) ->
  (exists io, get_environment (environment_provider (self w)) a = Ok io) ->
  coherent (self (fst (__call__ a kwargs w))).
Proof.
  intros Hco [io Hio].
  destruct (snd (needs_update a w)) as [[|] | e] eqn:Hupd.
  - rewrite (call_stale _ _ kwargs Hupd).
    unfold get_environment, Ase_get_environment in Hio.
    rewrite Atoms_copy_eq, Hio. unfold coherent. simpl.
    unfold get_environment, Ase_get_environment. rewrite Hio.
    destruct io. reflexivity.
  - rewrite (call_hit _ _ kwargs Hupd). exact Hco.
  - rewrite (call_raise _ _ kwargs _ Hupd). exact Hco.
Qed.

(** X5.  As long as the neighbour search returns for every configuration
    of a sequence of calls, the cache stays coherent: the neighbourhood
    held by the converter object is the output of the neighbour search for
    the configuration it holds (which, after a cache hit, is not the
    configuration of the last call). *)
Theorem X5_cache_stays_coherent
    (script : list (Atoms * gmap string PyVal)) (w : World) :
  coherent (self w) ->
  Forall (fun ak => exists io,
            get_environment (environment_provider (self w)) ak.1 = Ok io)
         script ->
  coherent (self (calls script w)).
Proof.
  revert w. induction script as [| [a kwargs] script IH]; intros w Hco Hall.
  - exact Hco.
  - apply Forall_cons in Hall as [Ha Hall].
    unfold calls in *. simpl. apply IH.
    + apply call_coherent; assumption.
    + destruct (call_settings w a kwargs) as (_ & _ & _ & ->). exact Hall.
Qed.

(** ** The comparison of positions on a changed number of atoms *)

Lemma array_sub_mismatch (my new : list Vec3) :
  length my <> length new -> length my <> 1%nat -> length new <> 1%nat ->
  array_sub my new = Raise ValueError.
Proof.
  intros Hne Hmy Hnew. unfold array_sub.
  rewrite (proj2 (Nat.eqb_neq _ _) Hne).
  destruct my as [| p [| p' my]], new as [| q [| q' new]];
    simpl in *; congruence.
Qed.

(** X6.  When the number of atoms differs from the cached one, neither of
    the two being 1, and cell and periodic flags are unchanged, the call
    raises [ValueError] (the positions do not broadcast) and leaves the
    converter object and the trace as they were. *)
Theorem X6_atom_count_mismatch_raises (w : World) (my a : Atoms)
    (kwargs : gmap string PyVal) :
  atoms (self w) = Some my ->
  ~ cell_differs (get_cell a) (get_cell my) ->
  ~ pbc_differs (get_pbc a) (get_pbc my) ->
  length (get_positions a) <> length (get_positions my) ->
  length (get_positions my) <> 1%nat ->
  length (get_positions a) <> 1%nat ->
  __call__ a kwargs w = (w, Raise ValueError).
Proof.
  intros Hmy Hcell Hpbc Hne Hone Hone'.
  apply call_raise.
  rewrite (needs_update_initialised _ _ _ Hmy). simpl.
  rewrite (_needs_update_positions _ _ _ Hmy Hcell Hpbc).
  unfold max_sq_displacement.
  rewrite array_sub_mismatch by congruence. reflexivity.
Qed.

Lemma array_sub_single (p : Vec3) (new : list Vec3) :
  length new <> 1%nat ->
  array_sub [p] new = Ok ((fun q => Vec3_sub p q) <$> new).
Proof.
  intros Hne. unfold array_sub.
  destruct new as [| q [| q' new]]; simpl in *; congruence.
Qed.

(** X7.  When the cached configuration has a single atom and the incoming
    one has two or more (cell and flags unchanged), the positions are not
    refused: the cached position is subtracted from every incoming
    position, and the maximum [m] is taken over the squared lengths of all
    the differences.  The call recomputes exactly when [m] is greater than
    the computed square of the skin, in which case some incoming atom is
    that far from the cached one; otherwise it reuses the neighbourhood
    that was computed for the single atom. *)
Theorem X7_single_cached_atom_is_broadcast (w : World) (my a : Atoms)
    (p : Vec3) (kwargs : gmap string PyVal) (skin2 : float64) :
  atoms (self w) = Some my ->
  get_positions my = [p] ->
  ~ cell_differs (get_cell a) (get_cell my) ->
  ~ pbc_differs (get_pbc a) (get_pbc my) ->
  (1 < length (get_positions a))%nat ->
  float_pow2 (skin (self w)) = Ok skin2 ->
  exists m : float64,
    array_max ((fun q => row_sq_sum (Vec3_sub p q)) <$> get_positions a) =
      Ok m /\
    (recomputes a kwargs w <-> fltb skin2 m = true) /\
    (recomputes a kwargs w ->
     Exists (fun q => fltb skin2 (row_sq_sum (Vec3_sub p q)) = true)
            (get_positions a)) /\
    (fltb skin2 m = false -> reuses a kwargs w /\ ~ recomputes a kwargs w).
Proof.
  intros Hmy Hp Hcell Hpbc Hlen Hpow.
  destruct (array_max_nonempty
              ((fun q => row_sq_sum (Vec3_sub p q)) <$> get_positions a))
    as [m Hm]; [rewrite length_fmap; lia |].
  exists m. split; [exact Hm |].
  assert (Hmax : max_sq_displacement (get_positions my) (get_positions a) =
                 Ok m).
  { unfold max_sq_displacement. rewrite Hp, array_sub_single by lia.
    cbn [Result_bind]. rewrite <- list_fmap_compose. exact Hm. }
  pose proof (needs_update_value w my a m skin2 Hmy Hmax Hpow) as Hupd.
  rewrite (cell_ne_any_false _ _ Hcell), (pbc_ne_any_false _ _ Hpbc) in Hupd.
  simpl in Hupd.
  destruct (call_decided w a kwargs _ Hupd) as [Hiff Hhit].
  split; [exact Hiff |]. split; [| exact Hhit].
  intros Hre%Hiff. apply Exists_exists.
  apply array_max_Ok in Hm.
  apply list_elem_of_fmap in Hm as (q & -> & Hq). eauto.
Qed.

Lemma max_sq_displacement_no_atoms (my new : list Vec3) :
  my = [] \/ new = [] ->
  max_sq_displacement my new = Raise ValueError.
Proof.
  unfold max_sq_displacement, array_sub.
  intros [-> | ->].
  - destruct new as [| q [| q' new]]; reflexivity.
  - destruct my as [| p [| p' my]]; reflexivity.
Qed.

(** X8.  A configuration without atoms cannot be compared: when the cached
    or the incoming configuration has no atom (cell and flags unchanged),
    the call raises [ValueError], whatever the other one holds, and changes
    nothing.  So once a configuration without atoms is cached, every call
    raises until the cell or a periodic flag changes. *)
Theorem X8_no_atoms_raises (w : World) (my a : Atoms)
    (kwargs : gmap string PyVal) :
  atoms (self w) = Some my ->
  ~ cell_differs (get_cell a) (get_cell my) ->
  ~ pbc_differs (get_pbc a) (get_pbc my) ->
  get_positions my = [] \/ get_positions a = [] ->
  __call__ a kwargs w = (w, Raise ValueError).
Proof.
  intros Hmy Hcell Hpbc Hempty.
  apply call_raise.
  rewrite (needs_update_initialised _ _ _ Hmy). simpl.
  rewrite (_needs_update_positions _ _ _ Hmy Hcell Hpbc).
  rewrite max_sq_displacement_no_atoms by exact Hempty. reflexivity.
Qed.

(** ** [needs_update] called on its own *)

(** X9.  [needs_update] is not a pure test: called on a converter that has
    not processed anything, it stores the configuration.  A call with that
    configuration (one atom or more, no NaN in the cell, a skin whose
    square is a float) is then a cache hit although no neighbourhood was
    ever computed: the neighbour search is not invoked, and the converter
    is handed a provider built from [None], which raises [AttributeError]
    as soon as it is queried. *)
Theorem X9_needs_update_primes_the_cache (w : World) (a : Atoms)
    (kwargs : gmap string PyVal) (skin2 : float64) :
  atoms (self w) = None ->
  neighborhood (self w) = None ->
  (0 < length (get_positions a))%nat ->
  ~ cell_differs (get_cell a) (get_cell a) ->
  float_pow2 (skin (self w)) = Ok skin2 ->
  snd (needs_update a w) = Ok true /\
  atoms (self (fst (needs_update a w))) = Some a /\
  neighborhood (self (fst (needs_update a w))) = None /\
  snd (needs_update a (fst (needs_update a w))) = Ok false /\
  reuses a kwargs (fst (needs_update a w)) /\
  ~ recomputes a kwargs (fst (needs_update a w)) /\
  forall a' : Atoms,
    get_environment
      {| Fake_neighborhood := neighborhood (self (fst (needs_update a w))) |}
      a' = Raise AttributeError.
Proof.
  intros Hnone Hnb Hpos Hcell Hpow.
  rewrite (needs_update_fresh _ _ Hnone). simpl.
  assert (Hhit : snd (needs_update a
                        {| self := set_atoms (Some a) (self w);
                           trace := trace w; ticks := ticks w |}) = Ok false).
  { destruct (max_sq_displacement_total (get_positions a) (get_positions a))
      as [m Hm]; [reflexivity | exact Hpos |].
    rewrite (needs_update_value _ a a m skin2); [| reflexivity | exact Hm |].
    - rewrite (cell_ne_any_false _ _ Hcell),
        (pbc_ne_any_false _ _ (pbc_differs_irrefl _)).
      simpl. f_equal.
      apply (null_not_above_skin (self w)); [| exact Hpow].
      exact (max_sq_displacement_self _ _ Hm).
    - exact Hpow. }
  split; [reflexivity |]. split; [reflexivity |]. split; [exact Hnb |].
  split; [exact Hhit |].
  split; [apply hit_reuses, Hhit |].
  split; [apply hit_not_recomputes, Hhit |].
  intros a'. rewrite Hnb. reflexivity.
Qed.

(** ** The representation converter *)

Lemma conversions_EnvCall (t : list Event) (p : AseEnvironmentProvider)
    (a : Atoms) :
  conversions (t ++ [EnvCall p a]) = conversions t.
Proof. unfold conversions. rewrite omap_app. simpl. apply app_nil_r. Qed.

Lemma conversions_ConvCall (t : list Event) (p : FakeEnvironmentProvider)
    (d : Device) (a : Atoms) :
  conversions (t ++ [ConvCall p d a]) = conversions t ++ [(p, d, a)].
Proof. unfold conversions. rewrite omap_app. reflexivity. Qed.

(** X10.  A call invokes the representation converter at most once, and
    exactly once when it returns.  The converter gets the incoming
    configuration itself, not the cached copy, with the device chosen at
    construction and a provider built from the neighbourhood the converter
    object holds when the call ends. *)
Theorem X10_converter_gets_the_incoming_configuration (w : World)
    (a : Atoms) (kwargs : gmap string PyVal) :
  (conversions (trace (fst (__call__ a kwargs w))) = conversions (trace w) \/
   conversions (trace (fst (__call__ a kwargs w))) =
     conversions (trace w) ++ [conversion a kwargs w]) /\
  forall r : Returned,
    snd (__call__ a kwargs w) = Ok r ->
    conversions (trace (fst (__call__ a kwargs w))) =
      conversions (trace w) ++ [conversion a kwargs w] /\
    AtomsConverter _ _ (conversion a kwargs w).1.1 (conversion a kwargs w).1.2
                   (conversion a kwargs w).2 =
      Ok (inputs (Returned_Converted r)).
Proof.
  unfold conversion.
  destruct (snd (needs_update a w)) as [[|] | e] eqn:Hupd.
  - rewrite (call_stale _ _ kwargs Hupd).
    destruct (ase_neighbor_list _ (Atoms_copy a)) as [io | e]; simpl.
    + rewrite conversions_ConvCall, conversions_EnvCall.
      split; [right; reflexivity |].
      intros r. case_AtomsConverter; simpl; [| discriminate].
      unfold returned. intros [= <-]. split; [reflexivity |].
      destruct (truthy _); reflexivity.
    + rewrite conversions_EnvCall. split; [left; reflexivity | discriminate].
  - rewrite (call_hit _ _ kwargs Hupd). simpl.
    rewrite conversions_ConvCall.
    split; [right; reflexivity |].
    intros r. case_AtomsConverter; simpl; [| discriminate].
    unfold returned. intros [= <-]. split; [reflexivity |].
    destruct (truthy _); reflexivity.
  - rewrite (call_raise _ _ kwargs _ Hupd). simpl.
    split; [left; reflexivity | discriminate].
Qed.

(** X11.  When the representation converter raises after a recomputation,
    the exception leaves the call, but the cache has already been
    refreshed: it holds the copy of the incoming configuration and the
    neighbourhood just computed for it, so a following call with the same
    configuration does not search again (unless an element of its cell is
    NaN). *)
Theorem X11_converter_error_keeps_the_new_cache (w : World) (a : Atoms)
    (kwargs : gmap string PyVal) (io : Idx * Offset) (e : Exception) :
  snd (needs_update a w) = Ok true ->
  get_environment (environment_provider (self w)) (Atoms_copy a) = Ok io ->
  AtomsConverter _ _
    {| Fake_neighborhood := Some {| idx := fst io; offset := snd io |} |}
    (device (self w)) a = Raise e ->
  let w' := fst (__call__ a kwargs w) in
  snd (__call__ a kwargs w) = Raise e /\
  atoms (self w') = Some (Atoms_copy a) /\
  neighborhood (self w') = Some {| idx := fst io; offset := snd io |} /\
  coherent (self w') /\
  (~ cell_differs (get_cell a) (get_cell a) ->
   snd (needs_update a w') <> Ok true).
Proof.
  intros Hstale Hio He w'. subst w'.
  assert (Hat : atoms (self (fst (__call__ a kwargs w))) =
                Some (Atoms_copy a)) by exact (stale_atoms _ _ kwargs Hstale).
  assert (Hnext : ~ cell_differs (get_cell a) (get_cell a) ->
                  snd (needs_update a (fst (__call__ a kwargs w))) <> Ok true).
  { intros Hcell. rewrite needs_update_result, Hat.
    exact (_needs_update_same _ _ Hat Hcell). }
  revert Hat Hnext. rewrite (call_stale _ _ kwargs Hstale).
  unfold get_environment, Ase_get_environment in Hio.
  rewrite Hio. cbv zeta. rewrite He. simpl. intros Hat Hnext.
  split; [reflexivity |]. split; [reflexivity |]. split; [reflexivity |].
  split; [| exact Hnext].
  unfold coherent. simpl. unfold get_environment, Ase_get_environment.
  rewrite Hio. destruct io. reflexivity.
Qed.

(** ** The clock *)

(** X14.  The clock is read only around the neighbour search and only when
    the timing was asked for: a call without a true [nl_construction_time],
    or one that does not recompute, reads it not at all; a timed
    recomputation reads it twice, or once when the neighbour search
    raises. *)
Theorem X14_clock_readings (w : World) (a : Atoms)
    (kwargs : gmap string PyVal) :
  (truthy (capture_nl_construction_time kwargs) = false \/
   snd (needs_update a w) <> Ok true ->
   ticks (fst (__call__ a kwargs w)) = ticks w) /\
  (truthy (capture_nl_construction_time kwargs) = true ->
   snd (needs_update a w) = Ok true ->
   ticks (fst (__call__ a kwargs w)) =
     match get_environment (environment_provider (self w)) (Atoms_copy a)
     with
     | Ok _ => S (S (ticks w))
     | Raise _ => S (ticks w)
     end).
Proof.
  split.
  - intros Hcase.
    destruct (snd (needs_update a w)) as [[|] | e] eqn:Hupd.
    + destruct Hcase as [Hflag | Hns]; [| contradiction].
      rewrite (call_stale _ _ kwargs Hupd), Hflag.
      destruct (ase_neighbor_list _ (Atoms_copy a)); reflexivity.
    + rewrite (call_hit _ _ kwargs Hupd). reflexivity.
    + rewrite (call_raise _ _ kwargs _ Hupd). reflexivity.
  - intros Hflag Hupd.
    rewrite (call_stale _ _ kwargs Hupd), Hflag.
    unfold get_environment, Ase_get_environment.
    destruct (ase_neighbor_list _ (Atoms_copy a)); reflexivity.
Qed.

(** ** Successive calls *)

(** X15.  The displacement is measured from the configuration of the last
    recomputation, not from the previous call: after a call that was not
    stale, any configuration is judged exactly as it would have been before
    that call, so small moves add up; after a stale call, it is judged
    against the configuration of that call. *)
Theorem X15_reference_moves_only_on_recomputation (w : World) (a b : Atoms)
    (kwargs : gmap string PyVal) :
  (snd (needs_update a w) <> Ok true ->
   snd (needs_update b (fst (__call__ a kwargs w))) =
   snd (needs_update b w)) /\
  (snd (needs_update a w) = Ok true ->
   snd (needs_update b (fst (__call__ a kwargs w))) =
   _needs_update (set_atoms (Some a) (self w)) b).
Proof.
  split.
  - intros Hns. apply needs_update_self.
    destruct (snd (needs_update a w)) as [[|] | e] eqn:Hupd.
    + contradiction.
    + rewrite (call_hit _ _ kwargs Hupd). reflexivity.
    + rewrite (call_raise _ _ kwargs _ Hupd). reflexivity.
  - intros Hupd. rewrite needs_update_result.
    rewrite (stale_atoms _ _ kwargs Hupd).
    destruct (call_settings w a kwargs) as (_ & Hskin & _).
    unfold _needs_update.
    rewrite (stale_atoms _ _ kwargs Hupd), Hskin, Atoms_copy_eq.
    reflexivity.
Qed.

(** ** The numbers of the comparison *)

(** X16.  On an initialised converter a call recomputes exactly when some
    element of the cell differs, or some periodic flag differs, or the
    positions can be compared, the square of the skin is a float, and the
    computed maximum of the squared displacements is greater than it.  For
    a configuration of the cached number of atoms, at least one, and a
    skin whose square is a float, a call that does not recompute is served
    from the cache. *)
Theorem X16_decision_on_computed_values (w : World) (my a : Atoms)
    (kwargs : gmap string PyVal) :
  atoms (self w) = Some my ->
  (recomputes a kwargs w <->
   cell_differs (get_cell a) (get_cell my) \/
   pbc_differs (get_pbc a) (get_pbc my) \/
   displacement_exceeds_skin (self w) my a) /\
  (length (get_positions a) = length (get_positions my) ->
   (0 < length (get_positions a))%nat ->
   (exists skin2 : float64, float_pow2 (skin (self w)) = Ok skin2) ->
   ~ recomputes a kwargs w ->
   reuses a kwargs w).
Proof.
  intros Hmy.
  pose proof (needs_update_initialised w a my Hmy) as Hinit.
  destruct (cell_ne_any (get_cell my) (get_cell a)
            || pbc_ne_any (get_pbc my) (get_pbc a)) eqn:Hchg.
  { assert (Hd : cell_differs (get_cell a) (get_cell my) \/
                 pbc_differs (get_pbc a) (get_pbc my)).
    { apply orb_true_iff in Hchg as [Hc | Hp];
        [left; apply cell_ne_any_iff, Hc | right; apply pbc_ne_any_iff, Hp]. }
    assert (Hupd : snd (needs_update a w) = Ok true).
    { rewrite Hinit. simpl. apply (_needs_update_changed _ my); auto. }
    pose proof (stale_recomputes _ _ kwargs Hupd) as Hre.
    split; [split; [intros _; tauto | intros _; exact Hre] |].
    intros _ _ _ Hn. contradiction. }
  apply orb_false_iff in Hchg as [Hc Hp].
  assert (Hnc : ~ cell_differs (get_cell a) (get_cell my))
    by (rewrite <- cell_ne_any_iff; congruence).
  assert (Hnp : ~ pbc_differs (get_pbc a) (get_pbc my))
    by (rewrite <- pbc_ne_any_iff; congruence).
  pose proof (_needs_update_positions (self w) my a Hmy Hnc Hnp) as Hval.
  destruct (max_sq_displacement (get_positions my) (get_positions a))
    as [m | e] eqn:Hm;
    [destruct (float_pow2 (skin (self w))) as [skin2 | e] eqn:Hpow |].
  - pose proof (needs_update_value w my a m skin2 Hmy Hm Hpow) as Hupd.
    rewrite Hc, Hp in Hupd. simpl in Hupd.
    destruct (call_decided w a kwargs _ Hupd) as [Hiff Hhit].
    split.
    + rewrite Hiff. split.
      * intros Hlt. right. right. exists m, skin2. auto.
      * intros [Hd | [Hd | (m' & s' & Hm' & Hs' & Hlt)]];
          [contradiction | contradiction | congruence].
    + intros _ _ _ Hn. destruct (fltb skin2 m) eqn:Hb.
      * exfalso. apply Hn, Hiff. reflexivity.
      * apply Hhit. reflexivity.
  - assert (Hupd : snd (needs_update a w) = Raise e)
      by (rewrite Hinit; simpl; rewrite Hval; reflexivity).
    split.
    + split.
      * intros Hre. exfalso. exact (raise_not_recomputes _ _ _ _ Hupd Hre).
      * intros [Hd | [Hd | (m' & s' & _ & Hs' & _)]];
          [contradiction | contradiction | congruence].
    + intros _ _ [s Hs]. congruence.
  - assert (Hupd : snd (needs_update a w) = Raise e)
      by (rewrite Hinit; simpl; rewrite Hval; reflexivity).
    split.
    + split.
      * intros Hre. exfalso. exact (raise_not_recomputes _ _ _ _ Hupd Hre).
      * intros [Hd | [Hd | (m' & s' & Hm' & _)]];
          [contradiction | contradiction | congruence].
    + intros Hlen Hpos _.
      destruct (max_sq_displacement_total (get_positions my)
                  (get_positions a)) as [m' Hm'];
        [congruence | exact Hpos | congruence].
Qed.

(** X17.  The square of the skin is computed at every comparison of
    positions, after the maximum.  When it raises, as [skin ** 2] does
    with [OverflowError] for a skin above about [1.3e154], a call on an
    initialised converter with unchanged cell and flags raises that
    exception and changes nothing, however small the displacement.  When
    the positions cannot be compared, the call raises [ValueError]
    instead; and a change of the cell or of a flag is still recomputed,
    because it is found before the square is computed. *)
Theorem X17_skin_square_error_propagates (w : World) (my a : Atoms)
    (kwargs : gmap string PyVal) (e : Exception) :
  atoms (self w) = Some my ->
  float_pow2 (skin (self w)) = Raise e ->
  (~ cell_differs (get_cell a) (get_cell my) ->
   ~ pbc_differs (get_pbc a) (get_pbc my) ->
   __call__ a kwargs w =
     (w, match max_sq_displacement (get_positions my) (get_positions a) with
         | Ok _ => Raise e
         | Raise _ => Raise ValueError
         end)) /\
  (cell_differs (get_cell a) (get_cell my) \/
   pbc_differs (get_pbc a) (get_pbc my) ->
   recomputes a kwargs w).
Proof.
  intros Hmy Hpow. split.
  - intros Hcell Hpbc.
    pose proof (needs_update_initialised w a my Hmy) as Hinit.
    pose proof (_needs_update_positions _ _ _ Hmy Hcell Hpbc) as Hval.
    destruct (max_sq_displacement (get_positions my) (get_positions a))
      as [m | e'] eqn:Hm; apply call_raise; rewrite Hinit; simpl;
      rewrite Hval; simpl.
    + rewrite Hpow. reflexivity.
    + rewrite (max_sq_displacement_Raise _ _ _ Hm). reflexivity.
  - intros Hchange. apply stale_recomputes.
    rewrite (needs_update_initialised _ _ _ Hmy). simpl.
    apply (_needs_update_changed _ my); assumption.
Qed.

Lemma feqb_nan_l (y : float64) : feqb S754_nan y = false.
Proof. destruct y; reflexivity. Qed.

Lemma feqb_nan_r (x : float64) : feqb x S754_nan = false.
Proof. destruct x; reflexivity. Qed.

Lemma cell_entries_length (c : Vec3 * Vec3 * Vec3) :
  length (cell_entries c) = 9%nat.
Proof.
  destruct c as [[[[c0 c1] c2] [[c3 c4] c5]] [[c6 c7] c8]]. reflexivity.
Qed.

(** X18.  NaN differs from everything, itself included: when an element of
    the cell of the incoming or of the cached configuration is NaN, every
    call on the initialised converter recomputes, also a call with the
    very configuration that is cached. *)
Theorem X18_nan_cell_always_recomputes (w : World) (my a : Atoms)
    (kwargs : gmap string PyVal) :
  atoms (self w) = Some my ->
  S754_nan ∈ cell_entries (get_cell a) \/
    S754_nan ∈ cell_entries (get_cell my) ->
  cell_differs (get_cell a) (get_cell my) /\
  snd (needs_update a w) = Ok true /\
  recomputes a kwargs w.
Proof.
  intros Hmy Hnan.
  assert (Hd : cell_differs (get_cell a) (get_cell my)).
  { destruct Hnan as [Hin | Hin];
      apply list_elem_of_lookup in Hin as [i Hi];
      pose proof (lookup_lt_Some _ _ _ Hi) as Hlt;
      rewrite cell_entries_length in Hlt.
    - destruct (lookup_lt_is_Some_2 (cell_entries (get_cell my)) i)
        as [y Hy]; [rewrite cell_entries_length; exact Hlt |].
      exists i, S754_nan, y. auto using feqb_nan_l.
    - destruct (lookup_lt_is_Some_2 (cell_entries (get_cell a)) i)
        as [x Hx]; [rewrite cell_entries_length; exact Hlt |].
      exists i, x, S754_nan. auto using feqb_nan_r. }
  assert (Hupd : snd (needs_update a w) = Ok true).
  { rewrite (needs_update_initialised _ _ _ Hmy). simpl.
    apply (_needs_update_changed _ my); auto. }
  split; [exact Hd |]. split; [exact Hupd | apply stale_recomputes, Hupd].
Qed.

End FurtherProperties.

(** ** The further properties on the concrete instances *)

Lemma X1_other_kwargs_ignored_witness :
  Converter_call C0 (<["verbose"%string := PyBool true]> timing) w_C0 =
    Converter_call C0 timing w_C0 /\
  Converter_call C0 (delete "verbose"%string timing) w_C0 =
    Converter_call C0 timing w_C0 /\
  Converter_call C0 (<["atoms"%string := PyBool true]> timing) w_C0 =
    (w_C0, Raise TypeError) /\
  Converter_call C0 (<["self"%string := PyBool true]> timing) w_C0 =
    (w_C0, Raise TypeError).
Proof.
  apply (X1_other_kwargs_ignored w_C0 C0 timing "verbose" (PyBool true));
    discriminate.
Defined.

Lemma X2_timing_does_not_change_the_work_witness :
  self (fst (Converter_call C0 timing (fresh_world (fz 5) (fq 1 10)))) =
    self (fst (Converter_call C0 no_kwargs (fresh_world (fz 5) (fq 1 10)))) /\
  trace (fst (Converter_call C0 timing (fresh_world (fz 5) (fq 1 10)))) =
    trace (fst (Converter_call C0 no_kwargs (fresh_world (fz 5) (fq 1 10)))) /\
  Result_map Returned_Converted
    (snd (Converter_call C0 timing (fresh_world (fz 5) (fq 1 10)))) =
    Result_map Returned_Converted
      (snd (Converter_call C0 no_kwargs (fresh_world (fz 5) (fq 1 10)))) /\
  (truthy (capture_nl_construction_time timing) =
     truthy (capture_nl_construction_time no_kwargs) ->
   Converter_call C0 timing (fresh_world (fz 5) (fq 1 10)) =
     Converter_call C0 no_kwargs (fresh_world (fz 5) (fq 1 10))).
Proof.
  apply (X2_timing_does_not_change_the_work (fresh_world (fz 5) (fq 1 10))
           C0 timing no_kwargs).
  - split; reflexivity.
  - split; reflexivity.
Defined.

Lemma X3_repeated_call_does_not_search_witness :
  invocations
    (trace (fst (__call__ C0 timing
                   (fst (__call__ C0 no_kwargs
                           (fresh_world (fz 5) (fq 1 10))))))) =
  invocations
    (trace (fst (__call__ C0 no_kwargs (fresh_world (fz 5) (fq 1 10))))).
Proof.
  apply (X3_repeated_call_does_not_search (fresh_world (fz 5) (fq 1 10)) C0
           no_kwargs timing).
  apply cell_differs_irrefl_finite. vm_compute. reflexivity.
Defined.

(** On a cell with a NaN the second call with the same configuration
    searches again. *)
Example nan_cell_is_searched_again :
  length (invocations
            (trace (fst (__call__ C0_nan_cell no_kwargs
                           (fresh_world (fz 5) (fq 1 10)))))) = 1%nat /\
  length (invocations
            (trace (fst (__call__ C0_nan_cell no_kwargs
                           (fst (__call__ C0_nan_cell no_kwargs
                                   (fresh_world (fz 5) (fq 1 10)))))))) =
    2%nat.
Proof. split; vm_compute; reflexivity. Qed.

Lemma X5_cache_stays_coherent_witness :
  coherent (self (calls demo_script (fresh_world (fz 5) (fq 1 10)))).
Proof.
  apply (X5_cache_stays_coherent demo_script (fresh_world (fz 5) (fq 1 10))).
  - exact I.
  - repeat apply Forall_cons_2; [| | | apply Forall_nil_2];
      eexists; vm_compute; reflexivity.
Defined.

Lemma X6_atom_count_mismatch_raises_witness :
  __call__ (demo_atoms [zero3; on_x (fz 1)]) no_kwargs w_C0 =
    (w_C0, Raise ValueError).
Proof.
  apply (X6_atom_count_mismatch_raises w_C0 C0).
  - vm_compute. reflexivity.
  - apply cell_differs_irrefl_finite. vm_compute. reflexivity.
  - apply pbc_differs_irrefl.
  - simpl. lia.
  - simpl. lia.
  - simpl. lia.
Defined.

Lemma X7_single_cached_atom_is_broadcast_witness :
  exists m : float64,
    array_max ((fun q => row_sq_sum (Vec3_sub zero3 q)) <$>
               get_positions two_atoms) = Ok m /\
    (recomputes two_atoms no_kwargs w_one_atom <->
     fltb (fmul (fq 1 10) (fq 1 10)) m = true) /\
    (recomputes two_atoms no_kwargs w_one_atom ->
     Exists (fun q => fltb (fmul (fq 1 10) (fq 1 10))
                           (row_sq_sum (Vec3_sub zero3 q)) = true)
            (get_positions two_atoms)) /\
    (fltb (fmul (fq 1 10) (fq 1 10)) m = false ->
     reuses two_atoms no_kwargs w_one_atom /\
     ~ recomputes two_atoms no_kwargs w_one_atom).
Proof.
  apply (X7_single_cached_atom_is_broadcast w_one_atom one_atom).
  - vm_compute. reflexivity.
  - reflexivity.
  - apply cell_differs_irrefl_finite. vm_compute. reflexivity.
  - apply pbc_differs_irrefl.
  - simpl. lia.
  - vm_compute. reflexivity.
Defined.

(** The two atoms are within the skin of the cached one: the call is
    served the neighbourhood of the single atom. *)
Example two_atoms_served_the_neighbourhood_of_one :
  reuses two_atoms no_kwargs w_one_atom /\
  neighborhood (self w_one_atom) = Some {| idx := [[]]; offset := [[]] |}.
Proof.
  split; [| vm_compute; reflexivity].
  apply hit_reuses. vm_compute. reflexivity.
Qed.

Lemma X8_no_atoms_raises_witness :
  __call__ C0 no_kwargs w_no_atoms = (w_no_atoms, Raise ValueError).
Proof.
  apply (X8_no_atoms_raises w_no_atoms no_atoms).
  - vm_compute. reflexivity.
  - apply cell_differs_irrefl_finite. vm_compute. reflexivity.
  - apply pbc_differs_irrefl.
  - left. reflexivity.
Defined.

Lemma X9_needs_update_primes_the_cache_witness :
  snd (needs_update C0 (fresh_world (fz 5) (fq 1 10))) = Ok true /\
  atoms (self (fst (needs_update C0 (fresh_world (fz 5) (fq 1 10))))) =
    Some C0 /\
  neighborhood (self (fst (needs_update C0 (fresh_world (fz 5) (fq 1 10))))) =
    None /\
  snd (needs_update C0
         (fst (needs_update C0 (fresh_world (fz 5) (fq 1 10))))) =
    Ok false /\
  reuses C0 timing (fst (needs_update C0 (fresh_world (fz 5) (fq 1 10)))) /\
  ~ recomputes C0 timing
      (fst (needs_update C0 (fresh_world (fz 5) (fq 1 10)))) /\
  forall a' : Atoms,
    get_environment
      {| Fake_neighborhood :=
           neighborhood
             (self (fst (needs_update C0
                           (fresh_world (fz 5) (fq 1 10))))) |}
      a' = Raise AttributeError.
Proof.
  apply (X9_needs_update_primes_the_cache (fresh_world (fz 5) (fq 1 10)) C0
           timing (fmul (fq 1 10) (fq 1 10))).
  - reflexivity.
  - reflexivity.
  - simpl. lia.
  - apply cell_differs_irrefl_finite. vm_compute. reflexivity.
  - vm_compute. reflexivity.
Defined.

(** With a skin whose square is not a float, the test on the primed cache
    raises instead. *)
Example huge_skin_primed_cache_raises :
  snd (needs_update C0
         (fst (needs_update C0 (fresh_world (fz 5) (fexact 1 700))))) =
    Raise OverflowError.
Proof. vm_compute. reflexivity. Qed.

Lemma X10_converter_gets_the_incoming_configuration_witness :
  (conversions (trace (fst (__call__ (C0_moved (fq 1 20)) no_kwargs w_C0))) =
     conversions (trace w_C0) \/
   conversions (trace (fst (__call__ (C0_moved (fq 1 20)) no_kwargs w_C0))) =
     conversions (trace w_C0) ++
     [conversion (C0_moved (fq 1 20)) no_kwargs w_C0]) /\
  forall r : Returned,
    snd (__call__ (C0_moved (fq 1 20)) no_kwargs w_C0) = Ok r ->
    conversions (trace (fst (__call__ (C0_moved (fq 1 20)) no_kwargs w_C0))) =
      conversions (trace w_C0) ++
      [conversion (C0_moved (fq 1 20)) no_kwargs w_C0] /\
    AtomsConverter _ _
      (conversion (C0_moved (fq 1 20)) no_kwargs w_C0).1.1
      (conversion (C0_moved (fq 1 20)) no_kwargs w_C0).1.2
      (conversion (C0_moved (fq 1 20)) no_kwargs w_C0).2 =
      Ok (inputs (Returned_Converted r)).
Proof.
  exact (X10_converter_gets_the_incoming_configuration w_C0
           (C0_moved (fq 1 20)) no_kwargs).
Defined.

Lemma X11_converter_error_keeps_the_new_cache_witness :
  snd (__call__ C0 no_kwargs w_cuda) =
    Raise (ExternalError "no cuda device") /\
  atoms (self (fst (__call__ C0 no_kwargs w_cuda))) = Some (Atoms_copy C0) /\
  neighborhood (self (fst (__call__ C0 no_kwargs w_cuda))) =
    Some {| idx := fst (idx C0_neighborhood, offset C0_neighborhood);
            offset := snd (idx C0_neighborhood, offset C0_neighborhood) |} /\
  coherent (self (fst (__call__ C0 no_kwargs w_cuda))) /\
  (~ cell_differs (get_cell C0) (get_cell C0) ->
   snd (needs_update C0 (fst (__call__ C0 no_kwargs w_cuda))) <> Ok true).
Proof.
  apply (X11_converter_error_keeps_the_new_cache w_cuda C0 no_kwargs
           (idx C0_neighborhood, offset C0_neighborhood)
           (ExternalError "no cuda device")).
  - reflexivity.
  - vm_compute. reflexivity.
  - reflexivity.
Defined.

Lemma X14_clock_readings_witness :
  (truthy (capture_nl_construction_time timing) = false \/
   snd (needs_update C0 (fresh_world (fz 5) (fq 1 10))) <> Ok true ->
   ticks (fst (__call__ C0 timing (fresh_world (fz 5) (fq 1 10)))) =
     ticks (fresh_world (fz 5) (fq 1 10))) /\
  (truthy (capture_nl_construction_time timing) = true ->
   snd (needs_update C0 (fresh_world (fz 5) (fq 1 10))) = Ok true ->
   ticks (fst (__call__ C0 timing (fresh_world (fz 5) (fq 1 10)))) =
     match @get_environment _ (@Ase_get_environment demo_externals)
             (environment_provider (self (fresh_world (fz 5) (fq 1 10))))
             (Atoms_copy C0)
     with
     | Ok _ => S (S (ticks (fresh_world (fz 5) (fq 1 10))))
     | Raise _ => S (ticks (fresh_world (fz 5) (fq 1 10)))
     end).
Proof.
  exact (X14_clock_readings (fresh_world (fz 5) (fq 1 10)) C0 timing).
Defined.

Lemma X15_reference_moves_only_on_recomputation_witness :
  (snd (needs_update (C0_moved (fq 1 20)) w_C0) <> Ok true ->
   snd (needs_update (C0_moved (fq 3 20))
          (fst (__call__ (C0_moved (fq 1 20)) no_kwargs w_C0))) =
   snd (needs_update (C0_moved (fq 3 20)) w_C0)) /\
  (snd (needs_update (C0_moved (fq 1 20)) w_C0) = Ok true ->
   snd (needs_update (C0_moved (fq 3 20))
          (fst (__call__ (C0_moved (fq 1 20)) no_kwargs w_C0))) =
   _needs_update (set_atoms (Some (C0_moved (fq 1 20))) (self w_C0))
                 (C0_moved (fq 3 20))).
Proof.
  exact (X15_reference_moves_only_on_recomputation w_C0 (C0_moved (fq 1 20))
           (C0_moved (fq 3 20)) no_kwargs).
Defined.

(** Two moves of 0.05 and 0.1, each within the skin of 0.1 of the position
    before it: the first is a cache hit, the second recomputes, being 0.15
    away from the cached configuration. *)
Example small_moves_add_up :
  snd (needs_update (C0_moved (fq 1 20)) w_C0) = Ok false /\
  snd (needs_update (C0_moved (fq 3 20))
         (fst (__call__ (C0_moved (fq 1 20)) no_kwargs w_C0))) = Ok true.
Proof. split; vm_compute; reflexivity. Qed.

Lemma X16_decision_on_computed_values_witness :
  (recomputes (C0_moved (fq 1 20)) no_kwargs w_C0 <->
   cell_differs (get_cell (C0_moved (fq 1 20))) (get_cell C0) \/
   pbc_differs (get_pbc (C0_moved (fq 1 20))) (get_pbc C0) \/
   displacement_exceeds_skin (self w_C0) C0 (C0_moved (fq 1 20))) /\
  (length (get_positions (C0_moved (fq 1 20))) = length (get_positions C0) ->
   (0 < length (get_positions (C0_moved (fq 1 20))))%nat ->
   (exists skin2 : float64,
      @float_pow2 demo_externals (skin (self w_C0)) = Ok skin2) ->
   ~ recomputes (C0_moved (fq 1 20)) no_kwargs w_C0 ->
   reuses (C0_moved (fq 1 20)) no_kwargs w_C0).
Proof.
  apply (X16_decision_on_computed_values w_C0 C0 (C0_moved (fq 1 20))
           no_kwargs).
  vm_compute. reflexivity.
Defined.

(** A move by 0.1 on a skin of 0.1: [1.1 - 1.0] rounds above [0.1], and
    the call recomputes. *)
Example move_by_the_skin_rounds_above :
  snd (needs_update (C0_moved (fq 1 10)) w_C0) = Ok true.
Proof. vm_compute. reflexivity. Qed.

Lemma X17_skin_square_error_propagates_witness :
  (~ cell_differs (get_cell C0) (get_cell C0) ->
   ~ pbc_differs (get_pbc C0) (get_pbc C0) ->
   __call__ C0 no_kwargs w_huge_skin =
     (w_huge_skin,
      match max_sq_displacement (get_positions C0) (get_positions C0) with
      | Ok _ => Raise OverflowError
      | Raise _ => Raise ValueError
      end)) /\
  (cell_differs (get_cell C0) (get_cell C0) \/
   pbc_differs (get_pbc C0) (get_pbc C0) ->
   recomputes C0 no_kwargs w_huge_skin).
Proof.
  apply (X17_skin_square_error_propagates w_huge_skin C0 C0 no_kwargs
           OverflowError).
  - vm_compute. reflexivity.
  - vm_compute. reflexivity.
Defined.

(** On a skin of [2 ** 700] the call with the cached configuration raises,
    and a change of a periodic flag is still recomputed. *)
Example huge_skin_raises :
  snd (__call__ C0 no_kwargs w_huge_skin) = Raise OverflowError /\
  recomputes C0_periodic no_kwargs w_huge_skin.
Proof.
  split.
  - rewrite (call_raise w_huge_skin C0 no_kwargs OverflowError);
      [reflexivity | vm_compute; reflexivity].
  - apply stale_recomputes. vm_compute. reflexivity.
Qed.

Lemma X18_nan_cell_always_recomputes_witness :
  cell_differs (get_cell C0_nan_cell) (get_cell C0_nan_cell) /\
  snd (needs_update C0_nan_cell w_nan_cell) = Ok true /\
  recomputes C0_nan_cell no_kwargs w_nan_cell.
Proof.
  apply (X18_nan_cell_always_recomputes w_nan_cell C0_nan_cell C0_nan_cell).
  - vm_compute. reflexivity.
  - left. simpl. apply list_elem_of_here.
Defined.
